(** * lamda_function.py: the S3-to-Glue ingestion handler

    A shallow embedding of [validate_environment] and [lambda_handler],
    together with the Python operations they rest on (subscripts on the
    decoded event, [urllib.parse.unquote_plus], the record flattening
    behind [pd.json_normalize]).

    Conventions.
    - A Python [str] is a [string] holding its UTF-8 bytes.
    - [os.environ] is a finite map from names to values.
    - An exception is a value of [exn]; a computation that may raise
      returns a [result].
    - The handler's observable effects (log records, the storage read and
      the dataset write) are collected in a trace, in program order. *)

From Stdlib Require Import ZArith String Ascii List Lia.
From stdpp Require Import base option list strings gmap.

Local Open Scope string_scope.
Local Open Scope Z_scope.

Set Warnings "-clear-no-such-hyp".

(** ** Python values *)

(** The values a decoded JSON document is made of.  A [dict] keeps its
    insertion order; a float is carried as its IEEE-754 bit pattern. *)
#[local] Unset Elimination Schemes.
Inductive json : Type :=
| JNull
| JBool (b : bool)
| JInt (n : Z)
| JFloat (bits : Z)
| JStr (s : string)
| JArr (elems : list json)
| JObj (fields : list (string * json)).
#[local] Set Elimination Schemes.

Definition dict := list (string * json).

(** Induction over values, with the hypothesis available for every
    element of an array and every field of an object. *)
Fixpoint json_nested_ind (P : json -> Prop)
    (HNull : P JNull) (HBool : forall b, P (JBool b))
    (HInt : forall n, P (JInt n)) (HFloat : forall f, P (JFloat f))
    (HStr : forall s, P (JStr s))
    (HArr : forall l, Forall P l -> P (JArr l))
    (HObj : forall d, Forall (fun kv => P (snd kv)) d -> P (JObj d))
    (v : json) {struct v} : P v :=
  match v with
  | JNull => HNull
  | JBool b => HBool b
  | JInt n => HInt n
  | JFloat f => HFloat f
  | JStr s => HStr s
  | JArr l =>
      HArr l ((fix all (l : list json) : Forall P l :=
                 match l with
                 | [] => @List.Forall_nil _ P
                 | x :: l' =>
                     @List.Forall_cons _ P x l'
                       (json_nested_ind P HNull HBool HInt HFloat HStr
                          HArr HObj x)
                       (all l')
                 end) l)
  | JObj d =>
      HObj d ((fix all (d : list (string * json))
                 : Forall (fun kv => P (snd kv)) d :=
                 match d with
                 | [] => @List.Forall_nil _ _
                 | (k, x) :: d' =>
                     @List.Forall_cons _ (fun kv => P (snd kv)) (k, x) d'
                       (json_nested_ind P HNull HBool HInt HFloat HStr
                          HArr HObj x)
                       (all d')
                 end) d)
  end.

(** ** Exceptions and results *)

Inductive exn : Type :=
| EnvironmentError (msg : string)
| KeyError (key : json)
| IndexError
| TypeError
| AttributeError
| NoFilesFound (msg : string)        (* wr.exceptions.NoFilesFound *)
| EmptyDataError (msg : string)      (* pd.errors.EmptyDataError *)
| OtherError (cls msg : string).     (* any other exception class *)

Inductive result (A : Type) : Type :=
| Ok (a : A)
| Raise (e : exn).
Arguments Ok {A} a.
Arguments Raise {A} e.

#[global] Instance result_ret : MRet result := fun A a => Ok a.

#[global] Instance result_bind : MBind result := fun A B k r =>
  match r with
  | Ok a => k a
  | Raise e => Raise e
  end.

(** ** dict operations *)

(** [d.get(k)] *)
Fixpoint dict_get (d : dict) (k : string) : option json :=
  match d with
  | [] => None
  | (k', v) :: d' => if decide (k' = k) then Some v else dict_get d' k
  end.

(** [d[k] = v]: an existing key keeps its position, a new key goes last. *)
Fixpoint dict_set (d : dict) (k : string) (v : json) : dict :=
  match d with
  | [] => [(k, v)]
  | (k', v') :: d' =>
      if decide (k' = k) then (k', v) :: d' else (k', v') :: dict_set d' k v
  end.

Definition dict_keys (d : dict) : list string := fst <$> d.

(** [{**d1, **d2}] *)
Definition dict_merge (d1 d2 : dict) : dict :=
  fold_left (fun acc kv => dict_set acc (fst kv) (snd kv)) d2 d1.

(** ** Configuration: validate_environment *)

Record config : Type := mkConfig {
  cleansed_path : string;
  db_name : string;
  table_name : string;
  write_mode : string
}.

Definition required_vars : list string :=
  [ "s3_cleansed_layer";
    "glue_catalog_db_name";
    "glue_catalog_table_name";
    "write_data_operation" ].

(** [[var for var in required_vars if var not in os.environ]] *)
Definition missing_vars (environ : gmap string string) : list string :=
  filter (fun var => environ !! var = None) required_vars.

(** [repr] of a list of strings that need no escaping (the required
    variable names are such strings). *)
Fixpoint repr_items (l : list string) : string :=
  match l with
  | [] => ""
  | [s] => "'" +:+ s +:+ "'"
  | s :: l' => "'" +:+ s +:+ "', " +:+ repr_items l'
  end.

Definition repr_str_list (l : list string) : string :=
  "[" +:+ repr_items l +:+ "]".

(** [os.environ[k]] *)
Definition environ_get (environ : gmap string string) (k : string)
  : result string :=
  match environ !! k with
  | Some v => Ok v
  | None => Raise (KeyError (JStr k))
  end.

Definition validate_environment (environ : gmap string string)
  : result config :=
  match missing_vars environ with
  | (_ :: _) as missing =>
      Raise (EnvironmentError
               ("Missing environment variables: " +:+ repr_str_list missing))
  | [] =>
      p ← environ_get environ "s3_cleansed_layer";
      d ← environ_get environ "glue_catalog_db_name";
      t ← environ_get environ "glue_catalog_table_name";
      m ← environ_get environ "write_data_operation";
      mret (mkConfig p d t m)
  end.

(** ** Subscripts on the decoded event *)

Definition byte_val (c : ascii) : Z := Z.of_N (N_of_ascii c).
Definition chr (n : Z) : ascii := ascii_of_N (Z.to_N n).

Definition is_cont (c : ascii) : bool :=
  (128 <=? byte_val c) && (byte_val c <? 192).

(** The continuation bytes that follow the first byte of a character. *)
Fixpoint take_cont (s : string) : string :=
  match s with
  | String c s' => if is_cont c then String c (take_cont s') else ""
  | "" => ""
  end.

(** [v[k]] for a string key [k] *)
Definition getitem (v : json) (k : string) : result json :=
  match v with
  | JObj d =>
      match dict_get d k with
      | Some x => Ok x
      | None => Raise (KeyError (JStr k))
      end
  | _ => Raise TypeError
  end.

(** [v[0]] *)
Definition getitem_0 (v : json) : result json :=
  match v with
  | JArr (x :: _) => Ok x
  | JArr [] => Raise IndexError
  | JObj _ => Raise (KeyError (JInt 0))
  | JStr (String c s) => Ok (JStr (String c (take_cont s)))
  | JStr "" => Raise IndexError
  | _ => Raise TypeError
  end.

(** ** urllib.parse.unquote_plus

    The standard library's algorithm: [unquote_plus] replaces each ['+']
    by a space and calls [unquote], which percent-decodes every ASCII run
    of the string to bytes and decodes them as UTF-8 with
    [errors='replace']. *)

(** The digits of [_hexdig = '0123456789ABCDEFabcdef']. *)
Definition hex_val (c : ascii) : option Z :=
  let n := byte_val c in
  if (48 <=? n) && (n <=? 57) then Some (n - 48)
  else if (65 <=? n) && (n <=? 70) then Some (n - 55)
  else if (97 <=? n) && (n <=? 102) then Some (n - 87)
  else None.

(** [string.replace('+', ' ')] *)
Fixpoint replace_plus (s : string) : string :=
  match s with
  | "" => ""
  | String c s' =>
      String (if decide (c = "+"%char) then " "%char else c) (replace_plus s')
  end.

(** ['%' in string] *)
Fixpoint has_percent (s : string) : bool :=
  match s with
  | "" => false
  | String c s' => if decide (c = "%"%char) then true else has_percent s'
  end.

(** [string.split('%')]: never empty. *)
Fixpoint split_percent (s : string) : list string :=
  match s with
  | "" => [""]
  | String c s' =>
      if decide (c = "%"%char) then "" :: split_percent s'
      else match split_percent s' with
           | b :: bs => String c b :: bs
           | [] => [String c ""]
           end
  end.

(** One piece after a ['%']: two hex digits give a byte, anything else
    keeps the ['%']. *)
Definition unquote_item (item : string) : string :=
  match item with
  | String a (String b rest) =>
      match hex_val a, hex_val b with
      | Some h, Some l => String (chr (16 * h + l)) rest
      | _, _ => String "%" item
      end
  | _ => String "%" item
  end.

Definition unquote_to_bytes (s : string) : string :=
  match split_percent s with
  | b0 :: ((_ :: _) as bits) =>
      b0 +:+ String.concat "" (map unquote_item bits)
  | _ => s
  end.

(** U+FFFD, as UTF-8. *)
Definition replacement_char : string :=
  String (chr 239) (String (chr 191) (String (chr 189) "")).

(** [bytes.decode('utf-8', 'replace')] on the byte representation: a
    well-formed sequence is kept, each ill-formed one becomes U+FFFD and
    decoding resumes at the first byte that is not part of it. *)
Fixpoint utf8_replace (s : string) : string :=
  match s with
  | "" => ""
  | String b rest =>
      let n := byte_val b in
      if n <? 128 then String b (utf8_replace rest)
      else if n <? 194 then replacement_char +:+ utf8_replace rest
      else if n <? 224 then
        match rest with
        | "" => replacement_char
        | String c2 r2 =>
            if is_cont c2 then String b (String c2 (utf8_replace r2))
            else replacement_char +:+ utf8_replace rest
        end
      else if n <? 240 then
        match rest with
        | "" => replacement_char
        | String c2 r2 =>
            if negb (is_cont c2)
               || ((n =? 224) && (byte_val c2 <? 160))
               || ((n =? 237) && (160 <=? byte_val c2))
            then replacement_char +:+ utf8_replace rest
            else
              match r2 with
              | "" => replacement_char
              | String c3 r3 =>
                  if is_cont c3
                  then String b (String c2 (String c3 (utf8_replace r3)))
                  else replacement_char +:+ utf8_replace r2
              end
        end
      else if n <? 245 then
        match rest with
        | "" => replacement_char
        | String c2 r2 =>
            if negb (is_cont c2)
               || ((n =? 240) && (byte_val c2 <? 144))
               || ((n =? 244) && (144 <=? byte_val c2))
            then replacement_char +:+ utf8_replace rest
            else
              match r2 with
              | "" => replacement_char
              | String c3 r3 =>
                  if negb (is_cont c3)
                  then replacement_char +:+ utf8_replace r2
                  else
                    match r3 with
                    | "" => replacement_char
                    | String c4 r4 =>
                        if is_cont c4
                        then String b (String c2 (String c3
                                 (String c4 (utf8_replace r4))))
                        else replacement_char +:+ utf8_replace r3
                    end
              end
        end
      else replacement_char +:+ utf8_replace rest
  end.

Definition is_ascii (c : ascii) : bool := byte_val c <? 128.

(** The maximal runs of ASCII and of non-ASCII bytes, in order (the
    pieces of [_asciire.split(string)]). *)
Fixpoint ascii_runs (s : string) : list (bool * string) :=
  match s with
  | "" => []
  | String c s' =>
      let a := is_ascii c in
      match ascii_runs s' with
      | (a', r) :: rs =>
          if Bool.eqb a a' then (a, String c r) :: rs
          else (a, String c "") :: (a', r) :: rs
      | [] => [(a, String c "")]
      end
  end.

Definition unquote_run (ar : bool * string) : string :=
  if fst ar then utf8_replace (unquote_to_bytes (snd ar)) else snd ar.

(** [unquote(string, encoding='utf-8', errors='replace')] *)
Definition unquote (s : string) : string :=
  if has_percent s then String.concat "" (map unquote_run (ascii_runs s))
  else s.

(** [unquote_plus(string, encoding='utf-8')]; only a [str] has [replace]. *)
Definition unquote_plus (v : json) : result string :=
  match v with
  | JStr s => Ok (unquote (replace_plus s))
  | _ => Raise AttributeError
  end.

(** ** Record flattening: pd.json_normalize

    pandas is not under src/; the definitions of this part model the
    library call of line 46 after the semantics the spec names. *)

Definition is_dict (v : json) : bool :=
  match v with JObj _ => true | _ => false end.

(** Modelled from the spec: the dot-joined column name of section 3,
    [key_string + "." + key], without the leading separator when
    [key_string] is empty. *)
Definition new_key (key_string key : string) : string :=
  if decide (key_string = "") then key else key_string +:+ "." +:+ key.

(** Modelled from the spec: the recursive walk of json-normalize (library
    code).  A dict contributes the leaves below it under the dot-joined
    path; anything else, arrays included, is stored as it is at
    [key_string]. *)
Fixpoint _normalise_json (data : json) (key_string : string)
    (normalized_dict : dict) : dict :=
  match data with
  | JObj fields =>
      (fix items (kvs : list (string * json)) (acc : dict) : dict :=
         match kvs with
         | [] => acc
         | (key, value) :: kvs' =>
             items kvs' (_normalise_json value (new_key key_string key) acc)
         end) fields normalized_dict
  | _ => dict_set normalized_dict key_string data
  end.

(** Modelled from the spec: one record of json-normalize (library code):
    the top-level values that are not dicts first, then the flattened
    nested dicts. *)
Definition _normalise_json_ordered (data : dict) : dict :=
  let top_dict_ := List.filter (fun kv => negb (is_dict (snd kv))) data in
  let nested_dict_ :=
    _normalise_json (JObj (List.filter (fun kv => is_dict (snd kv)) data))
                    "" [] in
  dict_merge top_dict_ nested_dict_.

(** Modelled from the spec: one row of json-normalize (library code).  A
    row that is not a dict has no fields; [json_normalize] below raises
    before it flattens such a row. *)
Definition _simple_json_normalize (ds : json) : dict :=
  match ds with
  | JObj d => _normalise_json_ordered d
  | _ => []
  end.

(** The flattened keys as the spec words them: the dot-joined paths from
    the record to its values that are not objects. *)
Fixpoint leaf_paths (data : json) (path : string) : list string :=
  match data with
  | JObj fields =>
      (fix below (kvs : list (string * json)) : list string :=
         match kvs with
         | [] => []
         | (key, value) :: kvs' =>
             (leaf_paths value (new_key path key) ++ below kvs')%list
         end) fields
  | _ => [path]
  end.

Definition flattened_keys (record : json) : list string :=
  match record with
  | JObj _ => leaf_paths record ""
  | _ => []
  end.

(** A dict without nested dicts. *)
Definition flat (d : dict) : Prop :=
  Forall (fun kv => is_dict (snd kv) = false) d.

(** Modelled from the spec: a pandas frame (library data), as its column
    labels and, per row, one cell per column; [None] is the missing value
    (NaN, the spec's null). *)
Record DataFrame : Type := mkDataFrame {
  columns : list string;
  rows : list (list (option json))
}.

Definition add_keys (cols keys : list string) : list string :=
  fold_left (fun (acc : list string) k =>
               if decide (k ∈ acc) then acc else (acc ++ [k])%list)
            keys cols.

(** The keys of all records, each once, in order of first appearance. *)
Definition union_keys (records : list dict) : list string :=
  fold_left (fun acc r => add_keys acc (dict_keys r)) records [].

(** Modelled from the spec: [DataFrame(records)] for a list of dicts
    (library code): the column set is the union of the keys, a key a
    record lacks is a missing value in its row. *)
Definition DataFrame_of_records (records : list dict) : DataFrame :=
  let cols := union_keys records in
  {| columns := cols;
     rows := (fun r => dict_get r <$> cols) <$> records |}.

(** Modelled from the spec: the frame of the flattened rows (library
    code): one row per element, nested objects become dot-joined columns,
    arrays are kept as they are (section 4.3 step 3); the column set is
    the union of the flattened keys, missing keys are nulls (section 3). *)
Definition normalized_frame (data : list json) : DataFrame :=
  DataFrame_of_records (_simple_json_normalize <$> data).

(** Modelled from the spec: [pd.json_normalize] on the values of a column
    (library code, not under src/).  The records must be objects
    (section 3); an element that is not a dict makes the call raise
    [TypeError], and nothing is flattened. *)
Definition json_normalize (data : list json) : result DataFrame :=
  if forallb is_dict data then Ok (normalized_frame data)
  else Raise TypeError.

(** [len(df)] *)
Definition df_len (df : DataFrame) : nat := length (rows df).

(** [df.shape] *)
Definition df_shape (df : DataFrame) : nat * nat :=
  (length (rows df), length (columns df)).

(** [df.head(n)] *)
Definition df_head (n : nat) (df : DataFrame) : DataFrame :=
  {| columns := columns df; rows := firstn n (rows df) |}.

(** The frame [wr.s3.read_json] returns, as its columns in order, each
    with the values of its cells. *)
Definition raw_frame : Type := list (string * list json).

(** The values of the column labelled [name], if the frame has one. *)
Fixpoint frame_column (df : raw_frame) (name : string)
  : option (list json) :=
  match df with
  | [] => None
  | (label, values) :: df' =>
      if decide (label = name) then Some values else frame_column df' name
  end.

(** [df_raw['items']] (line 46): the values of the column [items]; on a
    frame without that column the subscript raises [KeyError('items')]. *)
Definition get_items (df_raw : raw_frame) : result (list json) :=
  match frame_column df_raw "items" with
  | Some values => Ok values
  | None => Raise (KeyError (JStr "items"))
  end.

(** [df_raw.columns.tolist()] *)
Definition raw_columns (df_raw : raw_frame) : list string := fst <$> df_raw.

(** ** Effects of an invocation *)

Inductive level : Type := DEBUG | INFO | ERROR.

Definition level_no (l : level) : Z :=
  match l with DEBUG => 10 | INFO => 20 | ERROR => 40 end.

(** [logger.setLevel(logging.INFO)] *)
Definition logger_level : level := INFO.

(** The keyword arguments of the [wr.s3.to_parquet] call. *)
Record write_request : Type := mkWrite {
  wr_df : DataFrame;
  wr_path : string;
  wr_dataset : bool;
  wr_database : string;
  wr_table : string;
  wr_mode : string
}.

(** One constructor per logging call of the handler, with the values its
    f-string interpolates. *)
Inductive log_message : Type :=
| EnvironmentConfig (env : config)
| ProcessingFile (s3_path : string)
| RawDataColumns (cols : list string)
| ProcessedDataShape (shape : nat * nat)
| SampleData (head : DataFrame)
| DataWrittenTo (path : string)
| S3FileNotFound (e : exn)
| EmptyInvalidJSON (e : exn)
| UnexpectedError (e : exn).

Inductive effect : Type :=
| Logged (lvl : level) (msg : log_message)
| ReadJson (path : string)
| ToParquet (req : write_request).

(** A computation of the handler: the effects it performed, in order, and
    its value or the exception that ended it. *)
Definition M (A : Type) : Type := (list effect * result A)%type.

#[global] Instance M_ret : MRet M := fun A a => ([], Ok a).

#[global] Instance M_bind : MBind M := fun A B k m =>
  match m with
  | (t, Ok a) => let '(t', r) := k a in ((t ++ t')%list, r)
  | (t, Raise e) => (t, Raise e)
  end.

Definition lift {A} (r : result A) : M A := ([], r).

Definition log (lvl : level) (msg : log_message) : M unit :=
  if level_no logger_level <=? level_no lvl
  then ([Logged lvl msg], Ok tt)
  else ([], Ok tt).

Definition trace {A} (m : M A) : list effect := fst m.
Definition outcome {A} (m : M A) : result A := snd m.

Definition is_write (e : effect) : bool :=
  match e with ToParquet _ => true | _ => false end.


(** The dict the handler returns. *)
Record response : Type := mkResponse {
  statusCode : Z;
  body : string;
  output_location : string;
  processed_rows : nat
}.

(** ** The handler *)

(** [event['Records'][0]['s3']['bucket']['name']] *)
Definition event_bucket (event : json) : result json :=
  records ← getitem event "Records";
  record ← getitem_0 records;
  s3 ← getitem record "s3";
  bucket ← getitem s3 "bucket";
  getitem bucket "name".

(** [unquote_plus(event['Records'][0]['s3']['object']['key'],
    encoding='utf-8')] *)
Definition event_key (event : json) : result string :=
  records ← getitem event "Records";
  record ← getitem_0 records;
  s3 ← getitem record "s3";
  object ← getitem s3 "object";
  key ← getitem object "key";
  unquote_plus key.

(** The same chains below the first record. *)
Definition record_bucket (record : json) : result json :=
  s3 ← getitem record "s3";
  bucket ← getitem s3 "bucket";
  getitem bucket "name".

Definition record_key (record : json) : result json :=
  s3 ← getitem record "s3";
  object ← getitem s3 "object";
  getitem object "key".

(** Lines 37-38: the bucket, then the key. *)
Definition parse_s3_event (event : json) : result (json * string) :=
  bucket ← event_bucket event;
  key ← event_key event;
  mret (bucket, key).

(** The [except] clause that catches [e], as the record it logs. *)
Definition except_clause (e : exn) : log_message :=
  match e with
  | NoFilesFound _ => S3FileNotFound e
  | EmptyDataError _ => EmptyInvalidJSON e
  | _ => UnexpectedError e
  end.

(** The keyword arguments the handler passes to [wr.s3.to_parquet] for a
    configuration and a frame. *)
Definition request_of (env : config) (df : DataFrame) : write_request :=
  {| wr_df := df;
     wr_path := cleansed_path env;
     wr_dataset := true;
     wr_database := db_name env;
     wr_table := table_name env;
     wr_mode := write_mode env |}.

Section Handler.

(** The collaborators of one invocation: what [wr.s3.read_json] yields
    for a path (the frame it built from the object, or the exception it
    raises), what [wr.s3.to_parquet] does with a request ([Ok] when
    storage and catalog are both written, the exception otherwise), and
    how an f-string renders a value that is not a [str]. *)
Variable s3_read_json : string -> result raw_frame.
Variable s3_to_parquet : write_request -> result unit.
Variable format_value : json -> string.

Definition wr_s3_read_json (path : string) : M raw_frame :=
  ([ReadJson path], s3_read_json path).

Definition wr_s3_to_parquet (req : write_request) : M unit :=
  ([ToParquet req], s3_to_parquet req).

(** [f"{v}"] *)
Definition fstr (v : json) : string :=
  match v with
  | JStr s => s
  | _ => format_value v
  end.

(** [f"s3://{bucket}/{key}"] *)
Definition s3_path_of (bucket : json) (key : string) : string :=
  "s3://" +:+ fstr bucket +:+ "/" +:+ key.

(** The body of the [try] block. *)
Definition lambda_handler_try (environ : gmap string string)
    (event : json) : M response :=
  env ← lift (validate_environment environ);
  log INFO (EnvironmentConfig env);;
  '(bucket, key) ← lift (parse_s3_event event);
  let s3_path := s3_path_of bucket key in
  log INFO (ProcessingFile s3_path);;
  df_raw ← wr_s3_read_json s3_path;
  log INFO (RawDataColumns (raw_columns df_raw));;
  items ← lift (get_items df_raw);
  df_processed ← lift (json_normalize items);
  log INFO (ProcessedDataShape (df_shape df_processed));;
  log DEBUG (SampleData (df_head 2 df_processed));;
  wr_s3_to_parquet
    {| wr_df := df_processed;
       wr_path := cleansed_path env;
       wr_dataset := true;
       wr_database := db_name env;
       wr_table := table_name env;
       wr_mode := write_mode env |};;
  log INFO (DataWrittenTo (cleansed_path env));;
  mret {| statusCode := 200;
          body := "Successfully processed " +:+ key;
          output_location := cleansed_path env;
          processed_rows := df_len df_processed |}.

(** [try: ... except ...: logger.error(...); raise] *)
Definition lambda_handler (environ : gmap string string) (event : json)
    : M response :=
  match lambda_handler_try environ event with
  | (t, Ok r) => (t, Ok r)
  | (t, Raise e) =>
      ((t ++ fst (log ERROR (except_clause e)))%list, Raise e)
  end.

(** The stages of the [try] block (configuration, event, read, column
    selection, flattening, write), and what it means for one of them to
    fail with [e] once the stages before it have succeeded. *)
Inductive stage_fails (environ : gmap string string) (event : json)
  : exn -> Prop :=
| fails_configuration e :
    validate_environment environ = Raise e ->
    stage_fails environ event e
| fails_event env e :
    validate_environment environ = Ok env ->
    parse_s3_event event = Raise e ->
    stage_fails environ event e
| fails_read env bucket key e :
    validate_environment environ = Ok env ->
    parse_s3_event event = Ok (bucket, key) ->
    s3_read_json (s3_path_of bucket key) = Raise e ->
    stage_fails environ event e
| fails_items env bucket key df_raw e :
    validate_environment environ = Ok env ->
    parse_s3_event event = Ok (bucket, key) ->
    s3_read_json (s3_path_of bucket key) = Ok df_raw ->
    get_items df_raw = Raise e ->
    stage_fails environ event e
| fails_transform env bucket key df_raw items e :
    validate_environment environ = Ok env ->
    parse_s3_event event = Ok (bucket, key) ->
    s3_read_json (s3_path_of bucket key) = Ok df_raw ->
    get_items df_raw = Ok items ->
    json_normalize items = Raise e ->
    stage_fails environ event e
| fails_write env bucket key df_raw items df e :
    validate_environment environ = Ok env ->
    parse_s3_event event = Ok (bucket, key) ->
    s3_read_json (s3_path_of bucket key) = Ok df_raw ->
    get_items df_raw = Ok items ->
    json_normalize items = Ok df ->
    s3_to_parquet (request_of env df) = Raise e ->
    stage_fails environ event e.

End Handler.

(** ** Fixtures *)

(** The event and the environment of the module's local test block. *)
Definition mock_event : json :=
  JObj [("Records",
         JArr [JObj [("s3",
                      JObj [("bucket", JObj [("name", JStr "test-bucket")]);
                            ("object",
                             JObj [("key", JStr "test/key.json")])])]])].

Definition mock_environ : gmap string string :=
  <["s3_cleansed_layer" := "s3://test-output/"]>
    (<["glue_catalog_db_name" := "test_db"]>
       (<["glue_catalog_table_name" := "test_table"]>
          (<["write_data_operation" := "overwrite"]> ∅))).

(** The object [{"items": [{"a": 1, "b": {"c": 2}}]}], as the frame read
    from it: the one column [items], with one row. *)
Definition scenario_A_document : raw_frame :=
  [("items", [JObj [("a", JInt 1); ("b", JObj [("c", JInt 2)])]])].

(** The object [{"items": []}], as the frame read from it: the column
    [items], with no row. *)
Definition scenario_B_document : raw_frame := [("items", [])].

(** The object [{"items": {"0": {"a": 1}, "1": {"a": 2}}}], whose [items]
    field is an object and not a sequence, as the frame read from it:
    with the default orientation an object value is a column given by
    row label, so the column [items] holds the two records. *)
Definition items_object_document : raw_frame :=
  [("items", [JObj [("a", JInt 1)]; JObj [("a", JInt 2)]])].

(** The object [{"kind": ["list"]}], which has no [items] field, as the
    frame read from it. *)
Definition no_items_document : raw_frame := [("kind", [JStr "list"])].

(** A storage collaborator holding one object at one path. *)
Definition single_object (path : string) (doc : raw_frame) (p : string)
  : result raw_frame :=
  if decide (p = path) then Ok doc else Raise (NoFilesFound p).

(** A write collaborator that accepts every request. *)
Definition accept_write (req : write_request) : result unit := Ok tt.

(** A renderer for values that are not strings; the fixtures have none. *)
Definition no_format (v : json) : string := "".

(** ** Observations on traces *)

Definition is_read (e : effect) : bool :=
  match e with ReadJson _ => true | _ => false end.

Definition is_debug_log (e : effect) : bool :=
  match e with Logged DEBUG _ => true | _ => false end.

(** The record of line 59, ["Data written to: ..."]. *)
Definition is_written_log (e : effect) : bool :=
  match e with Logged _ (DataWrittenTo _) => true | _ => false end.

(** ['+' in string] *)
Fixpoint has_plus (s : string) : bool :=
  match s with
  | "" => false
  | String c s' => if decide (c = "+"%char) then true else has_plus s'
  end.

(** ** The local test block *)

(** [os.environ.update({...})] of lines 88-93: the four settings are
    written over whatever the process environment held. *)
Definition main_environ (environ : gmap string string)
  : gmap string string :=
  <["write_data_operation" := "overwrite"]>
    (<["glue_catalog_table_name" := "test_table"]>
       (<["glue_catalog_db_name" := "test_db"]>
          (<["s3_cleansed_layer" := "s3://test-output/"]> environ))).

(** [lambda_handler(mock_event, None)] of line 94, after the update. *)
Definition main (s3_read_json : string -> result raw_frame)
    (s3_to_parquet : write_request -> result unit)
    (format_value : json -> string) (environ : gmap string string)
  : M response :=
  lambda_handler s3_read_json s3_to_parquet format_value
                 (main_environ environ) mock_event.

(** * Properties *)

(** ** The library functions on small inputs *)

Example unquote_plus_ex1 :
  unquote_plus (JStr "test%2Fkey+1%2b.json") = Ok "test/key 1+.json".
Proof. reflexivity. Qed.

(** [%C3%A9] is U+00E9; a lone [%C3] and the truncated [%E2%82]
    each decode to one U+FFFD. *)
Example unquote_plus_utf8 :
  unquote_plus (JStr "%C3%A9|%C3|%E2%82")
  = Ok (String.concat ""
          [String (chr 195) (String (chr 169) ""); "|";
           replacement_char; "|"; replacement_char]).
Proof. reflexivity. Qed.

Example unquote_plus_not_str : unquote_plus (JInt 7) = Raise AttributeError.
Proof. reflexivity. Qed.

Example unquote_plus_ex2 : unquote_plus (JStr "a%zzb%4") = Ok "a%zzb%4".
Proof. reflexivity. Qed.

Example json_normalize_ex :
  json_normalize [JObj [("a", JObj [("b", JInt 1)])]]
  = Ok {| columns := ["a.b"]; rows := [[Some (JInt 1)]] |}.
Proof. reflexivity. Qed.

(** ** validate_environment *)

Lemma missing_vars_spec (environ : gmap string string) (k : string) :
  k ∈ missing_vars environ <-> k ∈ required_vars /\ environ !! k = None.
Proof.
  unfold missing_vars. rewrite list_elem_of_filter. tauto.
Qed.

Lemma required_vars_NoDup : NoDup required_vars.
Proof.
  apply (bool_decide_unpack (NoDup required_vars)). vm_compute. exact I.
Qed.

Lemma missing_vars_NoDup (environ : gmap string string) :
  NoDup (missing_vars environ).
Proof. apply NoDup_filter, required_vars_NoDup. Qed.

Lemma missing_vars_nil (environ : gmap string string) :
  missing_vars environ = [] <->
  forall k, k ∈ required_vars -> is_Some (environ !! k).
Proof.
  split.
  - intros Hnil k Hk.
    destruct (environ !! k) eqn:E; [eauto |].
    assert (k ∈ missing_vars environ) as Hin by (apply missing_vars_spec; auto).
    rewrite Hnil in Hin. set_solver.
  - intros Hall. destruct (missing_vars environ) as [|k l] eqn:E; [done |].
    assert (k ∈ missing_vars environ) as Hin by (rewrite E; set_solver).
    apply missing_vars_spec in Hin as [Hk Hnone].
    apply Hall in Hk as [v Hv]. congruence.
Qed.

(** With all four variables set, the configuration holds their values as
    they are. *)
Lemma validate_environment_present (environ : gmap string string)
    (p d t m : string) :
  environ !! "s3_cleansed_layer" = Some p ->
  environ !! "glue_catalog_db_name" = Some d ->
  environ !! "glue_catalog_table_name" = Some t ->
  environ !! "write_data_operation" = Some m ->
  validate_environment environ = Ok (mkConfig p d t m).
Proof.
  intros Hp Hd Ht Hm. unfold validate_environment.
  assert (missing_vars environ = []) as ->.
  { apply missing_vars_nil. intros k Hk. unfold required_vars in Hk.
    set_unfold in Hk. destruct Hk as [-> | [-> | [-> | [-> | []]]]]; eauto. }
  unfold environ_get. rewrite Hp, Hd, Ht, Hm. reflexivity.
Qed.

(** A configuration is only ever built from values found in the
    environment. *)
Lemma validate_environment_ok_inv (environ : gmap string string)
    (env : config) :
  validate_environment environ = Ok env ->
  environ !! "s3_cleansed_layer" = Some (cleansed_path env) /\
  environ !! "glue_catalog_db_name" = Some (db_name env) /\
  environ !! "glue_catalog_table_name" = Some (table_name env) /\
  environ !! "write_data_operation" = Some (write_mode env).
Proof.
  unfold validate_environment, environ_get.
  destruct (missing_vars environ); [| discriminate].
  destruct (environ !! "s3_cleansed_layer"); [| discriminate].
  destruct (environ !! "glue_catalog_db_name"); [| discriminate].
  destruct (environ !! "glue_catalog_table_name"); [| discriminate].
  destruct (environ !! "write_data_operation"); [| discriminate].
  cbn. intros [= <-]. auto.
Qed.

(** C3. When at least one of the four required variables is absent,
    [validate_environment] raises the configuration error
    ([EnvironmentError] in the source) whose message lists
    [missing_vars environ]; that list holds every required variable that
    is absent, each once, and nothing else.  No configuration is
    returned, so nothing is defaulted. *)
Theorem C3_missing_keys_all_reported (environ : gmap string string) :
  (exists k, k ∈ required_vars /\ environ !! k = None) ->
  validate_environment environ
  = Raise (EnvironmentError
             ("Missing environment variables: "
              +:+ repr_str_list (missing_vars environ)))
  /\ missing_vars environ <> []
  /\ NoDup (missing_vars environ)
  /\ (forall k, k ∈ missing_vars environ
                <-> k ∈ required_vars /\ environ !! k = None)
  /\ (forall env, validate_environment environ <> Ok env).
Proof.
  intros (k & Hk & Hnone).
  assert (missing_vars environ <> []) as Hne.
  { intros Hnil. rewrite missing_vars_nil in Hnil.
    destruct (Hnil k Hk) as [v Hv]. congruence. }
  assert (validate_environment environ
          = Raise (EnvironmentError
                     ("Missing environment variables: "
                      +:+ repr_str_list (missing_vars environ)))) as Heq.
  { unfold validate_environment.
    destruct (missing_vars environ); [congruence | reflexivity]. }
  split; [exact Heq |].
  split; [exact Hne |].
  split; [apply missing_vars_NoDup |].
  split; [apply missing_vars_spec |].
  intros env. rewrite Heq. discriminate.
Qed.

Lemma C3_missing_keys_all_reported_witness :
  let environ : gmap string string :=
    <["s3_cleansed_layer" := "s3://test-output/"]>
      (<["glue_catalog_table_name" := "test_table"]> ∅) in
  validate_environment environ
  = Raise (EnvironmentError
             "Missing environment variables: ['glue_catalog_db_name', 'write_data_operation']")
  /\ missing_vars environ = ["glue_catalog_db_name"; "write_data_operation"].
Proof.
  intros environ.
  destruct (C3_missing_keys_all_reported environ) as (Heq & _).
  - exists "write_data_operation". split; [| reflexivity].
    unfold required_vars. set_solver.
  - split; [| reflexivity]. rewrite Heq. reflexivity.
Defined.

(** ** The handler, stage by stage *)

Section HandlerProperties.

Variable s3_read_json : string -> result raw_frame.
Variable s3_to_parquet : write_request -> result unit.
Variable format_value : json -> string.

Local Abbreviation handler_try :=
  (lambda_handler_try s3_read_json s3_to_parquet format_value).
Local Abbreviation handler :=
  (lambda_handler s3_read_json s3_to_parquet format_value).
Local Abbreviation s3_path := (s3_path_of format_value).

(** The [try] block as a decision tree over its stages. *)
Lemma lambda_handler_try_stages (environ : gmap string string)
    (event : json) :
  handler_try environ event =
  match validate_environment environ with
  | Raise e => ([], Raise e)
  | Ok env =>
    match parse_s3_event event with
    | Raise e => ([Logged INFO (EnvironmentConfig env)], Raise e)
    | Ok (bucket, key) =>
      let before_read :=
        [Logged INFO (EnvironmentConfig env);
         Logged INFO (ProcessingFile (s3_path bucket key));
         ReadJson (s3_path bucket key)] in
      match s3_read_json (s3_path bucket key) with
      | Raise e => (before_read, Raise e)
      | Ok doc =>
        let before_transform :=
          (before_read
           ++ [Logged INFO (RawDataColumns (raw_columns doc))])%list in
        match get_items doc with
        | Raise e => (before_transform, Raise e)
        | Ok items =>
          match json_normalize items with
          | Raise e => (before_transform, Raise e)
          | Ok df =>
            let before_commit :=
              (before_read
               ++ [Logged INFO (RawDataColumns (raw_columns doc));
                   Logged INFO (ProcessedDataShape (df_shape df));
                   ToParquet (request_of env df)])%list in
            match s3_to_parquet (request_of env df) with
            | Raise e => (before_commit, Raise e)
            | Ok _ =>
                ((before_commit
                  ++ [Logged INFO (DataWrittenTo (cleansed_path env))])%list,
                 Ok {| statusCode := 200;
                       body := "Successfully processed " +:+ key;
                       output_location := cleansed_path env;
                       processed_rows := df_len df |})
            end
          end
        end
      end
    end
  end.
Proof.
  unfold lambda_handler_try, wr_s3_read_json, wr_s3_to_parquet, lift.
  destruct (validate_environment environ) as [env | e]; [| reflexivity].
  destruct (parse_s3_event event) as [[bucket key] | e]; [| reflexivity].
  cbn.
  destruct (s3_read_json (s3_path bucket key)) as [doc | e];
    [| reflexivity].
  cbn.
  destruct (get_items doc) as [items | e]; [| reflexivity].
  cbn.
  destruct (json_normalize items) as [df | e]; [| reflexivity].
  cbn. fold (request_of env df).
  destruct (s3_to_parquet (request_of env df)) as [[] | e]; reflexivity.
Qed.

(** The handler returns exactly when its [try] block does, with the same
    trace; otherwise it appends one ERROR record and raises the same
    exception. *)
Lemma lambda_handler_try_except (environ : gmap string string)
    (event : json) :
  handler environ event =
  match outcome (handler_try environ event) with
  | Ok r => (trace (handler_try environ event), Ok r)
  | Raise e =>
      ((trace (handler_try environ event)
        ++ [Logged ERROR (except_clause e)])%list, Raise e)
  end.
Proof.
  unfold lambda_handler, outcome, trace.
  destruct (handler_try environ event) as [t [r | e]]; reflexivity.
Qed.

End HandlerProperties.

(** ** Flattening *)

Lemma _normalise_json_dict (fields : dict) (key_string : string)
    (acc : dict) :
  _normalise_json (JObj fields) key_string acc
  = fold_left (fun a kv =>
                 _normalise_json (snd kv) (new_key key_string (fst kv)) a)
              fields acc.
Proof.
  revert acc. induction fields as [| [k v] fields IH]; intros acc.
  - reflexivity.
  - cbn [fold_left fst snd]. rewrite <- IH. reflexivity.
Qed.

Lemma _normalise_json_leaf (data : json) (key_string : string)
    (acc : dict) :
  is_dict data = false ->
  _normalise_json data key_string acc = dict_set acc key_string data.
Proof. destruct data; cbn; intros; done. Qed.

Lemma leaf_paths_dict (fields : dict) (path : string) :
  leaf_paths (JObj fields) path
  = mjoin ((fun kv => leaf_paths (snd kv) (new_key path (fst kv)))
           <$> fields).
Proof.
  induction fields as [| [k v] fields IH]; [reflexivity |].
  change (leaf_paths (JObj ((k, v) :: fields)) path)
    with (leaf_paths v (new_key path k) ++ leaf_paths (JObj fields) path)%list.
  rewrite IH. reflexivity.
Qed.

Lemma dict_set_keys (d : dict) (k : string) (v : json) (c : string) :
  c ∈ dict_keys (dict_set d k v) <-> c ∈ dict_keys d \/ c = k.
Proof.
  unfold dict_keys. induction d as [| [k' v'] d IH]; cbn.
  - set_solver.
  - destruct (decide (k' = k)) as [-> |]; cbn; set_solver.
Qed.

Lemma dict_set_flat (d : dict) (k : string) (v : json) :
  flat d -> is_dict v = false -> flat (dict_set d k v).
Proof.
  unfold flat. intros Hd Hv. induction Hd as [| [k' v'] d Hkv Hd IH]; cbn.
  - repeat constructor. exact Hv.
  - destruct (decide (k' = k)); constructor; auto.
Qed.

Lemma dict_merge_keys (d1 d2 : dict) (c : string) :
  c ∈ dict_keys (dict_merge d1 d2) <-> c ∈ dict_keys d1 \/ c ∈ dict_keys d2.
Proof.
  unfold dict_merge. revert d1.
  induction d2 as [| [k v] d2 IH]; intros d1; cbn [fold_left fst snd].
  - unfold dict_keys at 3. set_solver.
  - rewrite IH, dict_set_keys. unfold dict_keys at 4. set_solver.
Qed.

Lemma dict_merge_flat (d1 d2 : dict) :
  flat d1 -> flat d2 -> flat (dict_merge d1 d2).
Proof.
  unfold dict_merge. intros H1 H2. revert d1 H1.
  induction H2 as [| [k v] d2 Hv H2 IH]; intros d1 H1; cbn [fold_left].
  - exact H1.
  - apply IH. apply dict_set_flat; assumption.
Qed.

Lemma _normalise_json_keys (data : json) :
  forall key_string acc c,
    c ∈ dict_keys (_normalise_json data key_string acc)
    <-> c ∈ dict_keys acc \/ c ∈ leaf_paths data key_string.
Proof.
  induction data using json_nested_ind; intros key_string acc c;
    try (rewrite _normalise_json_leaf by reflexivity;
         rewrite dict_set_keys; cbn; set_solver).
  rewrite _normalise_json_dict, leaf_paths_dict.
  revert acc. induction H as [| [k v] d Hv Hd IH]; intros acc.
  - cbn. set_solver.
  - cbn [fold_left fmap list_fmap mjoin list_join fst snd].
    rewrite IH. cbn [snd] in Hv. rewrite Hv. set_solver.
Qed.

Lemma _normalise_json_flat (data : json) :
  forall key_string acc,
    flat acc -> flat (_normalise_json data key_string acc).
Proof.
  induction data using json_nested_ind; intros key_string acc Hacc;
    try (rewrite _normalise_json_leaf by reflexivity;
         apply dict_set_flat; [assumption | reflexivity]).
  rewrite _normalise_json_dict.
  revert acc Hacc. induction H as [| [k v] d Hv Hd IH]; intros acc Hacc.
  - exact Hacc.
  - cbn [fold_left fst snd]. apply IH. apply Hv. exact Hacc.
Qed.

Lemma leaf_paths_leaf (data : json) (path : string) :
  is_dict data = false -> leaf_paths data path = [path].
Proof. destruct data; cbn; intros; done. Qed.

Lemma new_key_top (key : string) : new_key "" key = key.
Proof. reflexivity. Qed.

Lemma leaf_paths_top_nested (d : dict) (c : string) :
  c ∈ leaf_paths (JObj d) ""
  <-> c ∈ dict_keys (List.filter (fun kv => negb (is_dict (snd kv))) d)
      \/ c ∈ leaf_paths
               (JObj (List.filter (fun kv => is_dict (snd kv)) d)) "".
Proof.
  rewrite !leaf_paths_dict. unfold dict_keys.
  induction d as [| [k v] d IH]; [cbn; set_solver |].
  cbn [List.filter fmap list_fmap mjoin list_join fst snd negb].
  destruct (is_dict v) eqn:Hv; cbn [negb fmap list_fmap mjoin list_join fst snd].
  - rewrite !elem_of_app. unfold mjoin, fmap in IH. rewrite IH. tauto.
  - rewrite elem_of_app, elem_of_cons, (leaf_paths_leaf _ _ Hv),
      new_key_top, list_elem_of_singleton.
    unfold mjoin, fmap in IH. rewrite IH. tauto.
Qed.

(** The keys of a flattened record are exactly its flattened keys. *)
Lemma _simple_json_normalize_keys (record : json) (c : string) :
  c ∈ dict_keys (_simple_json_normalize record) <-> c ∈ flattened_keys record.
Proof.
  destruct record as [| | | | | | d];
    cbn [_simple_json_normalize flattened_keys];
    try (unfold dict_keys; cbn; tauto).
  unfold _normalise_json_ordered.
  rewrite dict_merge_keys, _normalise_json_keys, (leaf_paths_top_nested d).
  assert (c ∉ dict_keys []) as Hnil by (unfold dict_keys; cbn; apply not_elem_of_nil).
  tauto.
Qed.

(** A flattened record has no nested dict left. *)
Lemma _simple_json_normalize_flat (record : json) :
  flat (_simple_json_normalize record).
Proof.
  destruct record; cbn [_simple_json_normalize]; try (constructor; fail).
  unfold _normalise_json_ordered. apply dict_merge_flat.
  - unfold flat. apply Forall_forall. intros kv Hin.
    apply list_elem_of_In, filter_In in Hin as [_ Hin].
    destruct (is_dict (snd kv)); [discriminate | reflexivity].
  - apply _normalise_json_flat. constructor.
Qed.

Lemma filter_flat_top (d : dict) :
  flat d -> List.filter (fun kv => negb (is_dict (snd kv))) d = d.
Proof.
  induction 1 as [| kv d Hkv Hd IH]; [reflexivity |].
  cbn. rewrite Hkv. cbn. rewrite IH. reflexivity.
Qed.

Lemma filter_flat_nested (d : dict) :
  flat d -> List.filter (fun kv => is_dict (snd kv)) d = [].
Proof.
  induction 1 as [| kv d Hkv Hd IH]; [reflexivity |].
  cbn. rewrite Hkv. exact IH.
Qed.

(** Flattening a flat record gives the record back. *)
Lemma _simple_json_normalize_flat_id (d : dict) :
  flat d -> _simple_json_normalize (JObj d) = d.
Proof.
  intros Hd. cbn [_simple_json_normalize]. unfold _normalise_json_ordered.
  rewrite (filter_flat_top d Hd), (filter_flat_nested d Hd). reflexivity.
Qed.

(** ** Frames built from records *)

Lemma add_keys_spec (cols keys : list string) (c : string) :
  c ∈ add_keys cols keys <-> c ∈ cols \/ c ∈ keys.
Proof.
  unfold add_keys. revert cols.
  induction keys as [| k keys IH]; intros cols; cbn [fold_left].
  - set_solver.
  - rewrite IH. destruct (decide (k ∈ cols)); set_solver.
Qed.

Lemma add_keys_NoDup (cols keys : list string) :
  NoDup cols -> NoDup (add_keys cols keys).
Proof.
  unfold add_keys. revert cols.
  induction keys as [| k keys IH]; intros cols Hnd; cbn [fold_left].
  - exact Hnd.
  - apply IH. destruct (decide (k ∈ cols)); [exact Hnd |].
    apply NoDup_app. split; [exact Hnd |].
    split; [| apply NoDup_singleton]. set_solver.
Qed.

Lemma add_keys_fresh (cols keys : list string) :
  NoDup (cols ++ keys) -> add_keys cols keys = (cols ++ keys)%list.
Proof.
  unfold add_keys. revert cols.
  induction keys as [| k keys IH]; intros cols Hnd; cbn [fold_left].
  - rewrite app_nil_r. reflexivity.
  - assert (k ∉ cols) as Hk.
    { apply NoDup_app in Hnd as (_ & Hdisj & _). intros Hin.
      apply (Hdisj k Hin). set_solver. }
    destruct (decide (k ∈ cols)); [contradiction |].
    rewrite IH; rewrite <- app_assoc; [reflexivity | exact Hnd].
Qed.

Lemma union_keys_from (records : list dict) (cols : list string) (c : string) :
  c ∈ fold_left (fun acc r => add_keys acc (dict_keys r)) records cols
  <-> c ∈ cols \/ exists r, r ∈ records /\ c ∈ dict_keys r.
Proof.
  revert cols. induction records as [| r records IH]; intros cols;
    cbn [fold_left].
  - set_solver.
  - rewrite IH, add_keys_spec. set_solver.
Qed.

Lemma union_keys_spec (records : list dict) (c : string) :
  c ∈ union_keys records <-> exists r, r ∈ records /\ c ∈ dict_keys r.
Proof. unfold union_keys. rewrite union_keys_from. set_solver. Qed.

Lemma union_keys_NoDup (records : list dict) : NoDup (union_keys records).
Proof.
  unfold union_keys. generalize (NoDup_nil_2 (A := string)).
  generalize (@nil string) as cols.
  induction records as [| r records IH]; intros cols Hnd; cbn [fold_left].
  - exact Hnd.
  - apply IH, add_keys_NoDup, Hnd.
Qed.

Lemma dict_get_None (d : dict) (c : string) :
  dict_get d c = None <-> c ∉ dict_keys d.
Proof.
  unfold dict_keys. induction d as [| [k v] d IH]; cbn.
  - set_solver.
  - destruct (decide (k = c)) as [-> |]; [set_solver |].
    rewrite IH. set_solver.
Qed.

Lemma dict_get_keys_NoDup (d : dict) :
  NoDup (dict_keys d) ->
  dict_get d <$> dict_keys d = (fun kv => Some (snd kv)) <$> d.
Proof.
  unfold dict_keys. induction d as [| [k v] d IH]; intros Hnd;
    [reflexivity |].
  cbn in Hnd. apply NoDup_cons in Hnd as [Hk Hnd].
  cbn [fmap list_fmap fst snd dict_get].
  destruct (decide (k = k)); [| congruence]. f_equal.
  rewrite <- (IH Hnd). apply list_fmap_ext. intros i c Hc. cbn.
  destruct (decide (k = c)) as [-> |]; [| reflexivity].
  exfalso. apply Hk. eapply list_elem_of_lookup_2, Hc.
Qed.

Lemma get_items_column (df_raw : raw_frame) (items : list json) :
  frame_column df_raw "items" = Some items -> get_items df_raw = Ok items.
Proof. unfold get_items. intros ->. reflexivity. Qed.

Lemma get_items_no_column (df_raw : raw_frame) :
  frame_column df_raw "items" = None ->
  get_items df_raw = Raise (KeyError (JStr "items")).
Proof. unfold get_items. intros ->. reflexivity. Qed.

Lemma json_normalize_records (items : list json) :
  Forall (fun r => is_dict r = true) items ->
  json_normalize items = Ok (normalized_frame items).
Proof.
  intros Hall. unfold json_normalize.
  assert (forallb is_dict items = true) as ->; [| reflexivity].
  apply forallb_forall. intros r Hr.
  rewrite Forall_forall in Hall. apply Hall, list_elem_of_In, Hr.
Qed.

(** C2. For a source object whose [items] field holds a sequence of
    record objects (the column [items] of the frame read from it), the
    flattening step succeeds and yields one row per element of [items];
    the columns are, without repetition, exactly the flattened
    (dot-joined) keys of all the records; and row [i] holds, under each
    column, the value record [i] has at that flattened key, or the missing
    value when the record has no such key. *)
Theorem C2_rows_and_columns (df_raw : raw_frame) (items : list json) :
  frame_column df_raw "items" = Some items ->
  Forall (fun r => is_dict r = true) items ->
  get_items df_raw = Ok items
  /\ json_normalize items = Ok (normalized_frame items)
  /\ df_len (normalized_frame items) = length items
  /\ NoDup (columns (normalized_frame items))
  /\ (forall c, c ∈ columns (normalized_frame items)
                <-> exists r, r ∈ items /\ c ∈ flattened_keys r)
  /\ (forall i r, items !! i = Some r ->
        rows (normalized_frame items) !! i
        = Some (dict_get (_simple_json_normalize r)
                <$> columns (normalized_frame items))
        /\ forall c, dict_get (_simple_json_normalize r) c = None
                     <-> c ∉ flattened_keys r).
Proof.
  intros Hitems Hrecords.
  split; [apply get_items_column, Hitems |].
  split; [apply json_normalize_records, Hrecords |].
  split; [unfold df_len, normalized_frame; cbn; rewrite !length_fmap; done |].
  split; [apply union_keys_NoDup |].
  split.
  - intros c. unfold normalized_frame. cbn [columns DataFrame_of_records].
    rewrite union_keys_spec. split.
    + intros (d & Hd & Hc). apply list_elem_of_fmap in Hd as (r & -> & Hr).
      exists r. split; [exact Hr |]. apply _simple_json_normalize_keys, Hc.
    + intros (r & Hr & Hc). exists (_simple_json_normalize r).
      split; [apply list_elem_of_fmap; eauto |].
      apply _simple_json_normalize_keys, Hc.
  - intros i r Hi. split.
    + unfold normalized_frame. cbn [rows columns DataFrame_of_records].
      rewrite !list_lookup_fmap, Hi. reflexivity.
    + intros c. rewrite dict_get_None, _simple_json_normalize_keys. tauto.
Qed.

Lemma C2_rows_and_columns_witness :
  let r1 := JObj [("a", JInt 1); ("b", JObj [("c", JInt 2)])] in
  let r2 := JObj [("a", JInt 3); ("d", JNull)] in
  get_items [("kind", [JStr "list"; JStr "list"]); ("items", [r1; r2])]
  = Ok [r1; r2]
  /\ json_normalize [r1; r2]
     = Ok {| columns := ["a"; "b.c"; "d"];
             rows := [[Some (JInt 1); Some (JInt 2); None];
                      [Some (JInt 3); None; Some JNull]] |}.
Proof.
  intros r1 r2.
  destruct (C2_rows_and_columns
              [("kind", [JStr "list"; JStr "list"]); ("items", [r1; r2])]
              [r1; r2]) as (Hget & Hnorm & _).
  - reflexivity.
  - repeat constructor.
  - split; [exact Hget |]. rewrite Hnorm. reflexivity.
Defined.

(** C7. Flattening a record that is already flat (no value is a nested
    object) returns the record unchanged, and the frame built from it has
    the record's keys as columns and its values as the single row; hence
    flattening the result of a flattening changes nothing. *)
Theorem C7_flatten_idempotent (d : dict) :
  flat d -> NoDup (dict_keys d) ->
  _simple_json_normalize (JObj d) = d
  /\ json_normalize [JObj d]
     = Ok {| columns := dict_keys d;
             rows := [(fun kv => Some (snd kv)) <$> d] |}
  /\ (forall record,
        _simple_json_normalize (JObj (_simple_json_normalize record))
        = _simple_json_normalize record).
Proof.
  intros Hflat Hnd. split; [apply _simple_json_normalize_flat_id, Hflat |].
  split.
  - unfold json_normalize, normalized_frame.
    cbn [forallb is_dict andb fmap list_fmap].
    rewrite (_simple_json_normalize_flat_id d Hflat).
    unfold DataFrame_of_records, union_keys. cbn [fold_left fmap list_fmap].
    rewrite (add_keys_fresh [] (dict_keys d)) by exact Hnd.
    cbn [app]. rewrite (dict_get_keys_NoDup d Hnd). reflexivity.
  - intros record. apply _simple_json_normalize_flat_id,
      _simple_json_normalize_flat.
Qed.

Lemma C7_flatten_idempotent_witness :
  let d := [("a", JInt 1); ("b.c", JInt 2); ("tags", JArr [JStr "x"])] in
  _simple_json_normalize (JObj d) = d
  /\ json_normalize [JObj d]
     = Ok {| columns := ["a"; "b.c"; "tags"];
             rows := [[Some (JInt 1); Some (JInt 2);
                       Some (JArr [JStr "x"])]] |}.
Proof.
  intros d.
  destruct (C7_flatten_idempotent d) as (Hid & Hframe & _).
  - repeat constructor.
  - apply (bool_decide_unpack (NoDup (dict_keys d))). vm_compute. exact I.
  - split; [exact Hid | exact Hframe].
Defined.

(** ** Event decoding *)

Lemma parse_s3_event_first (event records record : json) :
  getitem event "Records" = Ok records ->
  getitem_0 records = Ok record ->
  parse_s3_event event
  = (bucket ← record_bucket record;
     k ← record_key record;
     key ← unquote_plus k;
     mret (bucket, key)).
Proof.
  intros Hrecords Hrecord.
  unfold parse_s3_event, event_bucket, event_key, record_bucket, record_key.
  rewrite Hrecords. cbn. rewrite Hrecord. cbn.
  destruct (getitem record "s3") as [s3 | e]; [| reflexivity]. cbn.
  destruct (getitem s3 "bucket") as [b | e]; [| reflexivity]. cbn.
  destruct (getitem b "name") as [n | e]; [| reflexivity]. cbn.
  destruct (getitem s3 "object") as [o | e]; [| reflexivity]. cbn.
  destruct (getitem o "key") as [k | e]; [| reflexivity]. cbn.
  destruct (unquote_plus k); reflexivity.
Qed.

Section Invocation.

Variable s3_read_json : string -> result raw_frame.
Variable s3_to_parquet : write_request -> result unit.
Variable format_value : json -> string.

Local Abbreviation handler_try :=
  (lambda_handler_try s3_read_json s3_to_parquet format_value).
Local Abbreviation handler :=
  (lambda_handler s3_read_json s3_to_parquet format_value).
Local Abbreviation s3_path := (s3_path_of format_value).
Local Abbreviation fails := (stage_fails s3_read_json s3_to_parquet format_value).

Ltac stages :=
  rewrite !lambda_handler_try_except, !lambda_handler_try_stages.

(** C5. For a notification whose first record carries the bucket name
    [B] and the escaped key [K_enc] (both strings), decoding yields the
    bucket [B] and the key [unquote_plus K_enc], the percent-plus
    unescaping of [K_enc] read as UTF-8; and it is the object at
    [s3://B/<that key>] that the handler reads. *)
Theorem C5_event_decoding (event records record : json) (B K_enc : string) :
  getitem event "Records" = Ok records ->
  getitem_0 records = Ok record ->
  record_bucket record = Ok (JStr B) ->
  record_key record = Ok (JStr K_enc) ->
  unquote_plus (JStr K_enc) = Ok (unquote (replace_plus K_enc))
  /\ parse_s3_event event = Ok (JStr B, unquote (replace_plus K_enc))
  /\ (forall environ env,
        validate_environment environ = Ok env ->
        ReadJson ("s3://" +:+ B +:+ "/" +:+ unquote (replace_plus K_enc))
        ∈ trace (handler environ event)).
Proof.
  intros Hrecords Hrecord HB HK.
  assert (parse_s3_event event = Ok (JStr B, unquote (replace_plus K_enc)))
    as Hparse.
  { rewrite (parse_s3_event_first _ _ _ Hrecords Hrecord), HB, HK.
    reflexivity. }
  split; [reflexivity |]. split; [exact Hparse |].
  intros environ env Henv. stages. rewrite Henv, Hparse. cbn zeta.
  change (s3_path (JStr B) (unquote (replace_plus K_enc)))
    with ("s3://" +:+ B +:+ "/" +:+ unquote (replace_plus K_enc)).
  destruct (s3_read_json _) as [doc | e]; [| cbn; set_solver].
  cbn zeta.
  destruct (get_items doc) as [items | e]; [| cbn; set_solver].
  destruct (json_normalize items) as [df | e]; [| cbn; set_solver].
  destruct (s3_to_parquet _) as [[] | e]; cbn; set_solver.
Qed.

(** The frame of scenario A: one row, [a = 1] and [b.c = 2]. *)
Lemma scenario_A_frame :
  get_items scenario_A_document
  = Ok [JObj [("a", JInt 1); ("b", JObj [("c", JInt 2)])]]
  /\ json_normalize [JObj [("a", JInt 1); ("b", JObj [("c", JInt 2)])]]
     = Ok {| columns := ["a"; "b.c"];
             rows := [[Some (JInt 1); Some (JInt 2)]] |}.
Proof. split; reflexivity. Qed.

(** C1. With the four variables set, an event that names bucket [B] and
    key [key], the document [{"items": [{"a": 1, "b": {"c": 2}}]}] stored
    at [s3://B/key] and a write that succeeds, the handler returns status
    200, the body ["Successfully processed " + key], the configured
    destination as [output_location] and [processed_rows = 1]; the frame
    it writes has the single row [a = 1, b.c = 2]. *)
Theorem C1_scenario_A (environ : gmap string string) (event : json)
    (p d t m B key : string) :
  environ !! "s3_cleansed_layer" = Some p ->
  environ !! "glue_catalog_db_name" = Some d ->
  environ !! "glue_catalog_table_name" = Some t ->
  environ !! "write_data_operation" = Some m ->
  parse_s3_event event = Ok (JStr B, key) ->
  s3_read_json ("s3://" +:+ B +:+ "/" +:+ key) = Ok scenario_A_document ->
  s3_to_parquet
    (request_of (mkConfig p d t m)
       {| columns := ["a"; "b.c"];
          rows := [[Some (JInt 1); Some (JInt 2)]] |}) = Ok tt ->
  outcome (handler environ event)
  = Ok {| statusCode := 200;
          body := "Successfully processed " +:+ key;
          output_location := p;
          processed_rows := 1 |}
  /\ trace (handler environ event)
     = [Logged INFO (EnvironmentConfig (mkConfig p d t m));
        Logged INFO (ProcessingFile ("s3://" +:+ B +:+ "/" +:+ key));
        ReadJson ("s3://" +:+ B +:+ "/" +:+ key);
        Logged INFO (RawDataColumns ["items"]);
        Logged INFO (ProcessedDataShape (1%nat, 2%nat));
        ToParquet
          (request_of (mkConfig p d t m)
             {| columns := ["a"; "b.c"];
                rows := [[Some (JInt 1); Some (JInt 2)]] |});
        Logged INFO (DataWrittenTo p)].
Proof.
  intros Hp Hd Ht Hm Hparse Hread Hwrite. stages.
  rewrite (validate_environment_present environ p d t m Hp Hd Ht Hm), Hparse.
  cbn zeta.
  change (s3_path (JStr B) key) with ("s3://" +:+ B +:+ "/" +:+ key).
  rewrite Hread. cbn zeta. destruct scenario_A_frame as [-> ->].
  cbn zeta. rewrite Hwrite. split; reflexivity.
Qed.

(** C4, as amended. When the frame read from the source object has no
    [items] column, the subscript of line 46 raises [KeyError('items')]:
    the invocation ends with that exception, logged under "Unexpected
    error", and its trace holds no write, the [to_parquet] call is never
    reached.  The handler has no schema check of its own: an [items]
    field that is not a sequence is not rejected as such. *)
Theorem C4_missing_items_before_write (environ : gmap string string)
    (event : json) (env : config) (bucket : json) (key : string)
    (df_raw : raw_frame) :
  validate_environment environ = Ok env ->
  parse_s3_event event = Ok (bucket, key) ->
  s3_read_json (s3_path bucket key) = Ok df_raw ->
  frame_column df_raw "items" = None ->
  outcome (handler environ event) = Raise (KeyError (JStr "items"))
  /\ Forall (fun e => is_write e = false) (trace (handler environ event))
  /\ last (trace (handler environ event))
     = Some (Logged ERROR (UnexpectedError (KeyError (JStr "items")))).
Proof.
  intros Henv Hparse Hread Hitems. stages.
  rewrite Henv, Hparse. cbn zeta.
  rewrite Hread. cbn zeta. rewrite (get_items_no_column df_raw Hitems).
  split; [reflexivity |]. split; [| reflexivity].
  cbn. repeat constructor.
Qed.

(** C6. Whatever follows the first entry of [Records] (and whatever else
    the event carries) has no effect: the bucket and key, the trace and
    the result of the invocation are those of the event reduced to its
    first record. *)
Theorem C6_only_first_record (environ : gmap string string)
    (event record : json) (rest : list json) :
  getitem event "Records" = Ok (JArr (record :: rest)) ->
  parse_s3_event event = parse_s3_event (JObj [("Records", JArr [record])])
  /\ handler environ event
     = handler environ (JObj [("Records", JArr [record])]).
Proof.
  intros Hrecords.
  assert (parse_s3_event event
          = parse_s3_event (JObj [("Records", JArr [record])])) as Hparse.
  { rewrite (parse_s3_event_first event (JArr (record :: rest)) record)
      by (exact Hrecords || reflexivity).
    rewrite (parse_s3_event_first (JObj [("Records", JArr [record])])
               (JArr [record]) record) by reflexivity.
    reflexivity. }
  split; [exact Hparse |].
  stages. rewrite Hparse. reflexivity.
Qed.




(** C9. With an empty [items] sequence the transform raises nothing and
    yields a frame of zero rows; the handler goes on to call the write
    with that frame, and when the write succeeds it returns status 200
    with [processed_rows = 0]. *)
Theorem C9_empty_items_accepted (environ : gmap string string)
    (event : json) (env : config) (bucket : json) (key : string)
    (doc : raw_frame) :
  validate_environment environ = Ok env ->
  parse_s3_event event = Ok (bucket, key) ->
  s3_read_json (s3_path bucket key) = Ok doc ->
  frame_column doc "items" = Some [] ->
  get_items doc = Ok []
  /\ json_normalize [] = Ok (normalized_frame [])
  /\ df_len (normalized_frame []) = 0%nat
  /\ ToParquet (request_of env (normalized_frame []))
     ∈ trace (handler environ event)
  /\ (s3_to_parquet (request_of env (normalized_frame [])) = Ok tt ->
      outcome (handler environ event)
      = Ok {| statusCode := 200;
              body := "Successfully processed " +:+ key;
              output_location := cleansed_path env;
              processed_rows := 0 |}).
Proof.
  intros Henv Hparse Hread Hitems.
  pose proof (get_items_column doc [] Hitems) as Hget.
  split; [exact Hget |]. split; [reflexivity |]. split; [reflexivity |].
  stages. rewrite Henv, Hparse. cbn zeta. rewrite Hread. cbn zeta.
  rewrite Hget.
  change (json_normalize []) with (Ok (normalized_frame [])). cbn zeta.
  split.
  - destruct (s3_to_parquet _) as [[] | e]; cbn; set_solver.
  - intros ->. reflexivity.
Qed.

(** C10. Validation looks at presence only: with the four variables set
    and [write_data_operation] holding a value [v] that is neither
    ["append"] nor ["overwrite"], [validate_environment] returns the
    configuration with [write_mode = v].  In the handler, [v] reaches the
    write call unchanged, and a failure of the invocation is either the
    failure of that write call or a failure that occurs just the same when
    the mode is ["overwrite"]. *)
Theorem C10_write_mode_not_validated (environ : gmap string string)
    (p d t v : string) :
  environ !! "s3_cleansed_layer" = Some p ->
  environ !! "glue_catalog_db_name" = Some d ->
  environ !! "glue_catalog_table_name" = Some t ->
  environ !! "write_data_operation" = Some v ->
  v <> "append" -> v <> "overwrite" ->
  validate_environment environ = Ok (mkConfig p d t v)
  /\ forall event,
       (forall req, ToParquet req ∈ trace (handler environ event) ->
                    wr_mode req = v)
       /\ (forall e, outcome (handler environ event) = Raise e ->
             (exists req, ToParquet req ∈ trace (handler environ event)
                          /\ wr_mode req = v
                          /\ s3_to_parquet req = Raise e)
             \/ outcome
                  (handler (<["write_data_operation" := "overwrite"]> environ)
                           event) = Raise e).
Proof.
  intros Hp Hd Ht Hv _ _.
  pose proof (validate_environment_present environ p d t v Hp Hd Ht Hv)
    as Henv.
  assert (validate_environment
            (<["write_data_operation" := "overwrite"]> environ)
          = Ok (mkConfig p d t "overwrite")) as Henv'.
  { apply validate_environment_present;
      rewrite ?lookup_insert_eq; try reflexivity;
      rewrite lookup_insert_ne by discriminate; assumption. }
  split; [exact Henv |]. intros event. stages. rewrite Henv, Henv'.
  destruct (parse_s3_event event) as [[b k] | e2];
    [| split; [cbn; set_solver | intros e He; right; exact He]].
  cbn zeta.
  destruct (s3_read_json (s3_path b k)) as [doc | e3];
    [| split; [cbn; set_solver | intros e He; right; exact He]].
  cbn zeta.
  destruct (get_items doc) as [items | e4];
    [| split; [cbn; set_solver | intros e He; right; exact He]].
  destruct (json_normalize items) as [df | e4'];
    [| split; [cbn; set_solver | intros e He; right; exact He]].
  cbn zeta.
  destruct (s3_to_parquet (request_of (mkConfig p d t v) _))
    as [[] | e5] eqn:Hw.
  - split; [| intros e [=]].
    intros req Hin. cbn in Hin. set_unfold in Hin.
    destruct Hin as [[=] | [[=] | [[=] | [[=] | [[=] | [Hin | [[=] | []]]]]]]].
    injection Hin as ->. reflexivity.
  - split.
    + intros req Hin. cbn in Hin. set_unfold in Hin.
      destruct Hin as [[=] | [[=] | [[=] | [[=] | [[=] | [Hin | [[=] | []]]]]]]].
      injection Hin as ->. reflexivity.
    + intros e [= <-]. left.
      exists (request_of (mkConfig p d t v) df).
      split; [cbn; set_solver |]. split; [reflexivity | exact Hw].
Qed.

End Invocation.

(** ** The scenarios, run on the fixtures *)

Lemma C1_scenario_A_witness :
  outcome (lambda_handler
             (single_object "s3://test-bucket/test/key.json"
                            scenario_A_document)
             accept_write no_format mock_environ mock_event)
  = Ok {| statusCode := 200;
          body := "Successfully processed test/key.json";
          output_location := "s3://test-output/";
          processed_rows := 1 |}.
Proof.
  apply (C1_scenario_A
           (single_object "s3://test-bucket/test/key.json"
                          scenario_A_document)
           accept_write no_format mock_environ mock_event
           "s3://test-output/" "test_db" "test_table" "overwrite"
           "test-bucket" "test/key.json"); reflexivity.
Defined.

Lemma C4_missing_items_before_write_witness :
  let run := lambda_handler
               (single_object "s3://test-bucket/test/key.json"
                              no_items_document)
               accept_write no_format mock_environ mock_event in
  outcome run = Raise (KeyError (JStr "items"))
  /\ Forall (fun e => is_write e = false) (trace run).
Proof.
  intros run.
  destruct (C4_missing_items_before_write
              (single_object "s3://test-bucket/test/key.json"
                             no_items_document)
              accept_write no_format mock_environ mock_event
              (mkConfig "s3://test-output/" "test_db" "test_table"
                        "overwrite")
              (JStr "test-bucket") "test/key.json" no_items_document
              eq_refl eq_refl eq_refl eq_refl)
    as (Hout & Hno & _).
  split; [exact Hout | exact Hno].
Defined.

(** C4, the counterexample.  The object
    [{"items": {"0": {"a": 1}, "1": {"a": 2}}}] has an [items] field that
    is not a sequence; the frame read from it has the column [items] with
    the two records, and the invocation does not fail: it writes the two
    rows and returns status 200. *)
Lemma C4_items_object_is_written :
  let run := lambda_handler
               (single_object "s3://test-bucket/test/key.json"
                              items_object_document)
               accept_write no_format mock_environ mock_event in
  outcome run
  = Ok {| statusCode := 200;
          body := "Successfully processed test/key.json";
          output_location := "s3://test-output/";
          processed_rows := 2 |}
  /\ List.filter is_write (trace run)
     = [ToParquet
          (request_of
             (mkConfig "s3://test-output/" "test_db" "test_table"
                       "overwrite")
             {| columns := ["a"];
                rows := [[Some (JInt 1)]; [Some (JInt 2)]] |})].
Proof. split; reflexivity. Qed.

Lemma C5_event_decoding_witness :
  let record :=
    JObj [("s3", JObj [("bucket", JObj [("name", JStr "raw-bucket")]);
                       ("object",
                        JObj [("key", JStr "youtube/raw+data/caf%C3%A9%3D1.json")])])] in
  parse_s3_event (JObj [("Records", JArr [record])])
  = Ok (JStr "raw-bucket",
        String.concat ""
          ["youtube/raw data/caf";
           String (chr 195) (String (chr 169) "");
           "=1.json"]).
Proof.
  intros record.
  destruct (C5_event_decoding
              (single_object "" []) accept_write no_format
              (JObj [("Records", JArr [record])]) (JArr [record]) record
              "raw-bucket" "youtube/raw+data/caf%C3%A9%3D1.json"
              eq_refl eq_refl eq_refl eq_refl)
    as (_ & Hparse & _).
  rewrite Hparse. reflexivity.
Defined.

Lemma C6_only_first_record_witness :
  let other :=
    JObj [("s3", JObj [("bucket", JObj [("name", JStr "other-bucket")]);
                       ("object", JObj [("key", JStr "other.json")])])] in
  let first :=
    JObj [("s3", JObj [("bucket", JObj [("name", JStr "test-bucket")]);
                       ("object", JObj [("key", JStr "test/key.json")])])] in
  lambda_handler
    (single_object "s3://test-bucket/test/key.json" scenario_A_document)
    accept_write no_format mock_environ
    (JObj [("Records", JArr [first; other])])
  = lambda_handler
      (single_object "s3://test-bucket/test/key.json" scenario_A_document)
      accept_write no_format mock_environ
      (JObj [("Records", JArr [first])]).
Proof.
  intros other first.
  apply (C6_only_first_record
           (single_object "s3://test-bucket/test/key.json"
                          scenario_A_document)
           accept_write no_format mock_environ
           (JObj [("Records", JArr [first; other])]) first [other]).
  reflexivity.
Defined.

Lemma C9_empty_items_accepted_witness :
  outcome (lambda_handler
             (single_object "s3://test-bucket/test/key.json"
                            scenario_B_document)
             accept_write no_format mock_environ mock_event)
  = Ok {| statusCode := 200;
          body := "Successfully processed test/key.json";
          output_location := "s3://test-output/";
          processed_rows := 0 |}.
Proof.
  destruct (C9_empty_items_accepted
              (single_object "s3://test-bucket/test/key.json"
                             scenario_B_document)
              accept_write no_format mock_environ mock_event
              (mkConfig "s3://test-output/" "test_db" "test_table"
                        "overwrite")
              (JStr "test-bucket") "test/key.json" scenario_B_document
              eq_refl eq_refl eq_refl eq_refl)
    as (_ & _ & _ & _ & Hok).
  apply Hok. reflexivity.
Defined.

Lemma C10_write_mode_not_validated_witness :
  validate_environment (<["write_data_operation" := "upsert"]> mock_environ)
  = Ok (mkConfig "s3://test-output/" "test_db" "test_table" "upsert").
Proof.
  destruct (C10_write_mode_not_validated
              (single_object "" []) accept_write no_format
              (<["write_data_operation" := "upsert"]> mock_environ)
              "s3://test-output/" "test_db" "test_table" "upsert")
    as (Hok & _).
  - reflexivity.
  - reflexivity.
  - reflexivity.
  - reflexivity.
  - discriminate.
  - discriminate.
  - exact Hok.
Defined.

(** * Further properties of the code *)

(** ** validate_environment, lines 11-28 *)

(** X1. [validate_environment] returns a configuration exactly when the
    four variables are set, and the configuration then holds their
    values, whatever they are (an empty string included). *)
Theorem validate_environment_ok_iff (environ : gmap string string)
    (env : config) :
  validate_environment environ = Ok env
  <-> environ !! "s3_cleansed_layer" = Some (cleansed_path env)
      /\ environ !! "glue_catalog_db_name" = Some (db_name env)
      /\ environ !! "glue_catalog_table_name" = Some (table_name env)
      /\ environ !! "write_data_operation" = Some (write_mode env).
Proof.
  split.
  - apply validate_environment_ok_inv.
  - intros (Hp & Hd & Ht & Hm). destruct env as [p d t m]. cbn in *.
    apply validate_environment_present; assumption.
Qed.

(** X2. The only exception [validate_environment] raises is the
    [EnvironmentError] of line 21: the lookups of lines 24-27 never raise
    [KeyError], because they run only when nothing is missing. *)
Theorem validate_environment_raises_only_line_21
    (environ : gmap string string) :
  match validate_environment environ with
  | Ok env => missing_vars environ = []
  | Raise e =>
      e = EnvironmentError
            ("Missing environment variables: "
             +:+ repr_str_list (missing_vars environ))
      /\ missing_vars environ <> []
  end.
Proof.
  destruct (missing_vars environ) as [| k l] eqn:E.
  - pose proof (proj1 (missing_vars_nil environ) E) as Hall.
    destruct (Hall "s3_cleansed_layer") as [p Hp];
      [unfold required_vars; set_solver |].
    destruct (Hall "glue_catalog_db_name") as [d Hd];
      [unfold required_vars; set_solver |].
    destruct (Hall "glue_catalog_table_name") as [t Ht];
      [unfold required_vars; set_solver |].
    destruct (Hall "write_data_operation") as [m Hm];
      [unfold required_vars; set_solver |].
    rewrite (validate_environment_present environ p d t m Hp Hd Ht Hm).
    reflexivity.
  - unfold validate_environment. rewrite E. split; [reflexivity | discriminate].
Qed.

(** X3. Variables other than the four required ones play no part: two
    environments that agree on the required variables get the same
    configuration or the same error. *)
Theorem validate_environment_ignores_other_variables
    (environ1 environ2 : gmap string string) :
  (forall k, k ∈ required_vars -> environ1 !! k = environ2 !! k) ->
  validate_environment environ1 = validate_environment environ2.
Proof.
  intros Hagree.
  assert (environ1 !! "s3_cleansed_layer" = environ2 !! "s3_cleansed_layer")
    as Hp by (apply Hagree; unfold required_vars; set_solver).
  assert (environ1 !! "glue_catalog_db_name"
          = environ2 !! "glue_catalog_db_name")
    as Hd by (apply Hagree; unfold required_vars; set_solver).
  assert (environ1 !! "glue_catalog_table_name"
          = environ2 !! "glue_catalog_table_name")
    as Ht by (apply Hagree; unfold required_vars; set_solver).
  assert (environ1 !! "write_data_operation"
          = environ2 !! "write_data_operation")
    as Hm by (apply Hagree; unfold required_vars; set_solver).
  assert (missing_vars environ1 = missing_vars environ2) as Hmiss.
  { unfold missing_vars, required_vars. cbn [filter list_filter].
    rewrite Hp, Hd, Ht, Hm. reflexivity. }
  unfold validate_environment, environ_get.
  rewrite Hmiss, Hp, Hd, Ht, Hm. reflexivity.
Qed.

Lemma validate_environment_ignores_other_variables_witness :
  validate_environment (<["AWS_REGION" := "eu-west-1"]> mock_environ)
  = validate_environment mock_environ.
Proof.
  apply (validate_environment_ignores_other_variables
           (<["AWS_REGION" := "eu-west-1"]> mock_environ) mock_environ).
  intros k Hk. unfold required_vars in Hk. set_unfold in Hk.
  destruct Hk as [-> | [-> | [-> | [-> | []]]]]; reflexivity.
Defined.

(** ** Event decoding, lines 37-38 *)

Lemma replace_plus_plain (s : string) :
  has_plus s = false -> replace_plus s = s.
Proof.
  induction s as [| c s IH]; [reflexivity |]. cbn.
  destruct (decide (c = "+"%char)); [discriminate |].
  intros H. rewrite (IH H). reflexivity.
Qed.

(** X4. A key that holds neither ['+'] nor ['%'] is used as it is: the
    decoding of line 38 changes only escaped keys. *)
Theorem plain_key_is_unchanged (event records record bucket : json)
    (K : string) :
  getitem event "Records" = Ok records ->
  getitem_0 records = Ok record ->
  record_bucket record = Ok bucket ->
  record_key record = Ok (JStr K) ->
  has_plus K = false ->
  has_percent K = false ->
  parse_s3_event event = Ok (bucket, K).
Proof.
  intros Hrecords Hrecord Hb Hk Hplus Hpercent.
  rewrite (parse_s3_event_first _ _ _ Hrecords Hrecord), Hb, Hk. cbn.
  unfold unquote. rewrite (replace_plus_plain K Hplus), Hpercent.
  reflexivity.
Qed.

Lemma plain_key_is_unchanged_witness :
  parse_s3_event mock_event = Ok (JStr "test-bucket", "test/key.json").
Proof.
  apply (plain_key_is_unchanged mock_event
           (JArr [JObj [("s3",
                         JObj [("bucket", JObj [("name", JStr "test-bucket")]);
                               ("object",
                                JObj [("key", JStr "test/key.json")])])]])
           (JObj [("s3",
                   JObj [("bucket", JObj [("name", JStr "test-bucket")]);
                         ("object", JObj [("key", JStr "test/key.json")])])])
           (JStr "test-bucket") "test/key.json"); reflexivity.
Defined.

(** The exceptions of a subscript or of [unquote_plus] are caught by the
    last [except] clause. *)
Lemma getitem_raises (v : json) (k : string) (e : exn) :
  getitem v k = Raise e -> except_clause e = UnexpectedError e.
Proof.
  destruct v as [| | | | | | d]; cbn; try (intros [= <-]; reflexivity).
  destruct (dict_get d k); [discriminate | intros [= <-]; reflexivity].
Qed.

Lemma getitem_0_raises (v : json) (e : exn) :
  getitem_0 v = Raise e -> except_clause e = UnexpectedError e.
Proof.
  destruct v as [| | | | [| c s] | [| x l] | d]; cbn;
    try discriminate; intros [= <-]; reflexivity.
Qed.

Lemma unquote_plus_raises (v : json) (e : exn) :
  unquote_plus v = Raise e -> except_clause e = UnexpectedError e.
Proof.
  destruct v; cbn; try discriminate; intros [= <-]; reflexivity.
Qed.

Lemma parse_s3_event_raises (event : json) (e : exn) :
  parse_s3_event event = Raise e -> except_clause e = UnexpectedError e.
Proof.
  unfold parse_s3_event, event_bucket, event_key.
  destruct (getitem event "Records") as [records | e1] eqn:H1; cbn;
    [| intros [= <-]; eapply getitem_raises; eassumption].
  destruct (getitem_0 records) as [record | e2] eqn:H2; cbn;
    [| intros [= <-]; eapply getitem_0_raises; eassumption].
  destruct (getitem record "s3") as [s3 | e3] eqn:H3; cbn;
    [| intros [= <-]; eapply getitem_raises; eassumption].
  destruct (getitem s3 "bucket") as [b | e4] eqn:H4; cbn;
    [| intros [= <-]; eapply getitem_raises; eassumption].
  destruct (getitem b "name") as [n | e5] eqn:H5; cbn;
    [| intros [= <-]; eapply getitem_raises; eassumption].
  destruct (getitem s3 "object") as [o | e6] eqn:H6; cbn;
    [| intros [= <-]; eapply getitem_raises; eassumption].
  destruct (getitem o "key") as [k | e7] eqn:H7; cbn;
    [| intros [= <-]; eapply getitem_raises; eassumption].
  destruct (unquote_plus k) as [key | e8] eqn:H8; cbn;
    [discriminate | intros [= <-]; eapply unquote_plus_raises; eassumption].
Qed.

(** ** lambda_handler, lines 30-76 *)

Lemma except_clause_not_written (e : exn) :
  is_written_log (Logged ERROR (except_clause e)) = false.
Proof. destruct e; reflexivity. Qed.

Lemma except_clause_not_sample (e : exn) (lvl : level) (df : DataFrame) :
  Logged ERROR (except_clause e) <> Logged lvl (SampleData df).
Proof. destruct e; discriminate. Qed.

Section InvocationOrder.

Variable s3_read_json : string -> result raw_frame.
Variable s3_to_parquet : write_request -> result unit.
Variable format_value : json -> string.

Local Abbreviation handler_try :=
  (lambda_handler_try s3_read_json s3_to_parquet format_value).
Local Abbreviation handler :=
  (lambda_handler s3_read_json s3_to_parquet format_value).
Local Abbreviation s3_path := (s3_path_of format_value).

Ltac by_stages :=
  rewrite !lambda_handler_try_except, !lambda_handler_try_stages.

Ltac elem_cases H :=
  repeat (apply elem_of_cons in H as [H | H]; [try discriminate H |]);
  try (apply elem_of_nil in H; contradiction).

(** X5. A missing variable is found before the event is looked at: the
    invocation then consists of one ERROR record and the
    [EnvironmentError], whatever the event is; nothing else is logged,
    read or written. *)
Theorem configuration_failure_comes_first (environ : gmap string string)
    (event : json) :
  missing_vars environ <> [] ->
  handler environ event
  = ([Logged ERROR
        (UnexpectedError
           (EnvironmentError
              ("Missing environment variables: "
               +:+ repr_str_list (missing_vars environ))))],
     Raise (EnvironmentError
              ("Missing environment variables: "
               +:+ repr_str_list (missing_vars environ)))).
Proof.
  intros Hmiss. by_stages. unfold validate_environment.
  destruct (missing_vars environ); [congruence | reflexivity].
Qed.

(** X6. An event the subscripts of lines 37-38 cannot walk ends the
    invocation right after the configuration was logged: the exception
    is logged under "Unexpected error" and re-raised, and storage is
    neither read nor written. *)
Theorem malformed_event_touches_no_storage (environ : gmap string string)
    (event : json) (env : config) (e : exn) :
  validate_environment environ = Ok env ->
  parse_s3_event event = Raise e ->
  handler environ event
  = ([Logged INFO (EnvironmentConfig env);
      Logged ERROR (UnexpectedError e)], Raise e).
Proof.
  intros Henv Hparse. by_stages. rewrite Henv, Hparse. cbn.
  rewrite (parse_s3_event_raises event e Hparse). reflexivity.
Qed.

(** X7. Bounds and missing keys of the event: an empty [Records] list
    raises [IndexError], an event object without [Records] raises
    [KeyError('Records')]; in both cases that exception is what the
    handler raises. *)
Theorem event_without_first_record (environ : gmap string string)
    (fields : dict) (env : config) :
  validate_environment environ = Ok env ->
  (dict_get fields "Records" = Some (JArr []) ->
   outcome (handler environ (JObj fields)) = Raise IndexError)
  /\ (dict_get fields "Records" = None ->
      outcome (handler environ (JObj fields))
      = Raise (KeyError (JStr "Records"))).
Proof.
  intros Henv. split; intros Hrecords.
  - assert (parse_s3_event (JObj fields) = Raise IndexError) as Hparse.
    { unfold parse_s3_event, event_bucket. cbn. rewrite Hrecords.
      reflexivity. }
    by_stages. rewrite Henv, Hparse. reflexivity.
  - assert (parse_s3_event (JObj fields) = Raise (KeyError (JStr "Records")))
      as Hparse.
    { unfold parse_s3_event, event_bucket. cbn. rewrite Hrecords.
      reflexivity. }
    by_stages. rewrite Henv, Hparse. reflexivity.
Qed.

(** X8. When the read of line 43 raises, the handler raises the same
    exception having written nothing, and logs it under the clause that
    matches its class: [NoFilesFound] as "S3 file not found",
    [EmptyDataError] as "Empty/invalid JSON", anything else as
    "Unexpected error". *)
Theorem read_failure_is_classified (environ : gmap string string)
    (event : json) (env : config) (bucket : json) (key : string)
    (e : exn) :
  validate_environment environ = Ok env ->
  parse_s3_event event = Ok (bucket, key) ->
  s3_read_json (s3_path bucket key) = Raise e ->
  handler environ event
  = ([Logged INFO (EnvironmentConfig env);
      Logged INFO (ProcessingFile (s3_path bucket key));
      ReadJson (s3_path bucket key);
      Logged ERROR
        (match e with
         | NoFilesFound _ => S3FileNotFound e
         | EmptyDataError _ => EmptyInvalidJSON e
         | _ => UnexpectedError e
         end)], Raise e).
Proof.
  intros Henv Hparse Hread. by_stages. rewrite Henv, Hparse. cbn zeta.
  rewrite Hread. reflexivity.
Qed.

(** X9. Every invocation reads storage at most once and writes at most
    once, and a write only ever follows a read that succeeded. *)
Theorem at_most_one_read_then_one_write (environ : gmap string string)
    (event : json) :
  (length (List.filter is_read (trace (handler environ event))) <= 1)%nat
  /\ (length (List.filter is_write (trace (handler environ event))) <= 1)%nat
  /\ (forall i req,
        trace (handler environ event) !! i = Some (ToParquet req) ->
        exists j path doc,
          (j < i)%nat
          /\ trace (handler environ event) !! j = Some (ReadJson path)
          /\ s3_read_json path = Ok doc).
Proof.
  by_stages.
  destruct (validate_environment environ) as [env | e1];
    [| cbn; repeat split; try lia; intros [| [| i]] req; discriminate].
  destruct (parse_s3_event event) as [[b k] | e2];
    [| cbn; repeat split; try lia; intros [| [| [| i]]] req; discriminate].
  cbn zeta.
  destruct (s3_read_json (s3_path b k)) as [doc | e3] eqn:Hread;
    [| cbn; repeat split; try lia;
       intros [| [| [| [| [| i]]]]] req; discriminate].
  cbn zeta.
  destruct (get_items doc) as [items | e4];
    [| cbn; repeat split; try lia;
       intros [| [| [| [| [| [| i]]]]]] req; discriminate].
  destruct (json_normalize items) as [df | e4'];
    [| cbn; repeat split; try lia;
       intros [| [| [| [| [| [| i]]]]]] req; discriminate].
  cbn zeta.
  destruct (s3_to_parquet _) as [[] | e5]; cbn; repeat split; try lia.
  - intros [| [| [| [| [| [| [| [| i]]]]]]]] req; try discriminate.
    intros _. exists 2%nat, (s3_path b k), doc.
    split; [lia |]. split; [reflexivity | exact Hread].
  - intros [| [| [| [| [| [| [| [| i]]]]]]]] req; try discriminate.
    intros _. exists 2%nat, (s3_path b k), doc.
    split; [lia |]. split; [reflexivity | exact Hread].
Qed.

(** X10. A returned response describes the write that was made: its
    status is 200, [output_location] is the path the frame was written
    to and the value of [s3_cleansed_layer], [processed_rows] is the
    number of rows of the frame written, and database, table and mode of
    the write are the values of the environment. *)
Theorem response_describes_the_write (environ : gmap string string)
    (event : json) (r : response) :
  outcome (handler environ event) = Ok r ->
  statusCode r = 200
  /\ environ !! "s3_cleansed_layer" = Some (output_location r)
  /\ exists req,
       ToParquet req ∈ trace (handler environ event)
       /\ s3_to_parquet req = Ok tt
       /\ wr_path req = output_location r
       /\ df_len (wr_df req) = processed_rows r
       /\ wr_dataset req = true
       /\ environ !! "glue_catalog_db_name" = Some (wr_database req)
       /\ environ !! "glue_catalog_table_name" = Some (wr_table req)
       /\ environ !! "write_data_operation" = Some (wr_mode req).
Proof.
  by_stages.
  destruct (validate_environment environ) as [env | e1] eqn:Henv;
    [| discriminate].
  apply validate_environment_ok_inv in Henv as (Hp & Hd & Ht & Hm).
  destruct (parse_s3_event event) as [[b k] | e2]; [| discriminate].
  cbn zeta.
  destruct (s3_read_json (s3_path b k)) as [doc | e3]; [| discriminate].
  cbn zeta.
  destruct (get_items doc) as [items | e4]; [| discriminate].
  destruct (json_normalize items) as [df | e4']; [| discriminate].
  cbn zeta.
  destruct (s3_to_parquet (request_of env df))
    as [[] | e5] eqn:Hw; [| discriminate].
  cbn. intros [= <-]. cbn.
  split; [reflexivity |]. split; [exact Hp |].
  exists (request_of env df).
  split; [set_solver |]. cbn. auto 10.
Qed.

(** X11. "Data written to" is logged exactly in the invocations that
    return a response, as their last record; an invocation that raises
    never logs it, also when the write itself was attempted. *)
Theorem written_is_logged_iff_success (environ : gmap string string)
    (event : json) :
  match outcome (handler environ event) with
  | Ok r =>
      last (trace (handler environ event))
      = Some (Logged INFO (DataWrittenTo (output_location r)))
  | Raise _ =>
      Forall (fun e => is_written_log e = false)
             (trace (handler environ event))
  end.
Proof.
  by_stages.
  destruct (validate_environment environ) as [env | e1];
    [| cbn; repeat constructor; apply except_clause_not_written].
  destruct (parse_s3_event event) as [[b k] | e2];
    [| cbn; repeat constructor; apply except_clause_not_written].
  cbn zeta.
  destruct (s3_read_json (s3_path b k)) as [doc | e3];
    [| cbn; repeat constructor; apply except_clause_not_written].
  cbn zeta.
  destruct (get_items doc) as [items | e4];
    [| cbn; repeat constructor; apply except_clause_not_written].
  destruct (json_normalize items) as [df | e4'];
    [| cbn; repeat constructor; apply except_clause_not_written].
  cbn zeta.
  destruct (s3_to_parquet _) as [[] | e5]; cbn; [reflexivity |].
  repeat constructor; apply except_clause_not_written.
Qed.

(** X12. The logger is set to INFO, so the sample of the data (the
    [logger.debug] call of line 48) is never part of what an invocation
    logs. *)
Theorem sample_data_is_never_logged (environ : gmap string string)
    (event : json) :
  Forall (fun e => is_debug_log e = false /\
                   forall lvl df, e <> Logged lvl (SampleData df))
         (trace (handler environ event)).
Proof.
  by_stages.
  destruct (validate_environment environ) as [env | e1];
    [| cbn; repeat constructor;
       solve [discriminate | intros; apply except_clause_not_sample]].
  destruct (parse_s3_event event) as [[b k] | e2];
    [| cbn; repeat constructor;
       solve [discriminate | intros; apply except_clause_not_sample]].
  cbn zeta.
  destruct (s3_read_json (s3_path b k)) as [doc | e3];
    [| cbn; repeat constructor;
       solve [discriminate | intros; apply except_clause_not_sample]].
  cbn zeta.
  destruct (get_items doc) as [items | e4];
    [| cbn; repeat constructor;
       solve [discriminate | intros; apply except_clause_not_sample]].
  destruct (json_normalize items) as [df | e4'];
    [| cbn; repeat constructor;
       solve [discriminate | intros; apply except_clause_not_sample]].
  cbn zeta.
  destruct (s3_to_parquet _) as [[] | e5]; cbn;
    repeat constructor;
       solve [discriminate | intros; apply except_clause_not_sample].
Qed.

(** X13. An invocation depends on the event only through the bucket and
    the decoded key: two events that decode to the same bucket and key
    (for instance a space escaped as ['+'] in one and as [%20] in the
    other) give the same trace and the same result. *)
Theorem same_object_same_invocation (environ : gmap string string)
    (event1 event2 : json) :
  parse_s3_event event1 = parse_s3_event event2 ->
  handler environ event1 = handler environ event2.
Proof. intros Hparse. by_stages. rewrite Hparse. reflexivity. Qed.

(** X15. A returned response names the decoded key, not the escaped one
    of the event, and the object that was read is the one at
    [s3://<bucket>/<decoded key>]. *)
Theorem response_names_the_decoded_key (environ : gmap string string)
    (event : json) (r : response) :
  outcome (handler environ event) = Ok r ->
  exists bucket key doc,
    parse_s3_event event = Ok (bucket, key)
    /\ body r = "Successfully processed " +:+ key
    /\ s3_read_json (s3_path bucket key) = Ok doc
    /\ ReadJson (s3_path bucket key) ∈ trace (handler environ event).
Proof.
  by_stages.
  destruct (validate_environment environ) as [env | e1]; [| discriminate].
  destruct (parse_s3_event event) as [[b k] | e2]; [| discriminate].
  cbn zeta.
  destruct (s3_read_json (s3_path b k)) as [doc | e3] eqn:Hread;
    [| discriminate].
  cbn zeta.
  destruct (get_items doc) as [items | e4]; [| discriminate].
  destruct (json_normalize items) as [df | e4']; [| discriminate].
  cbn zeta.
  destruct (s3_to_parquet _) as [[] | e5]; [| discriminate].
  cbn. intros [= <-]. exists b, k, doc. cbn.
  split; [reflexivity |]. split; [reflexivity |].
  split; [exact Hread | set_solver].
Qed.

(** X16. When the flattening of line 46 raises (an element of the
    [items] column that is not an object makes it raise [TypeError]), the
    handler raises that exception after the raw columns were logged and
    before any write is attempted. *)
Theorem transform_failure_before_write (environ : gmap string string)
    (event : json) (env : config) (bucket : json) (key : string)
    (df_raw : raw_frame) (items : list json) (e : exn) :
  validate_environment environ = Ok env ->
  parse_s3_event event = Ok (bucket, key) ->
  s3_read_json (s3_path bucket key) = Ok df_raw ->
  get_items df_raw = Ok items ->
  json_normalize items = Raise e ->
  handler environ event
  = ([Logged INFO (EnvironmentConfig env);
      Logged INFO (ProcessingFile (s3_path bucket key));
      ReadJson (s3_path bucket key);
      Logged INFO (RawDataColumns (raw_columns df_raw));
      Logged ERROR (except_clause e)], Raise e).
Proof.
  intros Henv Hparse Hread Hitems Hnorm. by_stages.
  rewrite Henv, Hparse. cbn zeta. rewrite Hread. cbn zeta.
  rewrite Hitems, Hnorm. reflexivity.
Qed.

(** X14. The local test block overrides the four variables, so its
    invocation never fails on configuration, whatever the process
    environment was; it reads only [s3://test-bucket/test/key.json], and
    whatever it writes goes to [s3://test-output/], table
    [test_db.test_table], in mode [overwrite]. *)
Theorem main_is_always_configured (environ : gmap string string) :
  validate_environment (main_environ environ)
  = Ok (mkConfig "s3://test-output/" "test_db" "test_table" "overwrite")
  /\ (forall path,
        ReadJson path
        ∈ trace (main s3_read_json s3_to_parquet format_value environ) ->
        path = "s3://test-bucket/test/key.json")
  /\ (forall req,
        ToParquet req
        ∈ trace (main s3_read_json s3_to_parquet format_value environ) ->
        wr_path req = "s3://test-output/"
        /\ wr_database req = "test_db"
        /\ wr_table req = "test_table"
        /\ wr_mode req = "overwrite"
        /\ wr_dataset req = true).
Proof.
  assert (validate_environment (main_environ environ)
          = Ok (mkConfig "s3://test-output/" "test_db" "test_table"
                         "overwrite")) as Henv.
  { apply validate_environment_present; unfold main_environ;
      repeat (rewrite lookup_insert_ne by discriminate);
      apply lookup_insert_eq. }
  split; [exact Henv |].
  assert (parse_s3_event mock_event
          = Ok (JStr "test-bucket", "test/key.json")) as Hparse
    by reflexivity.
  unfold main. by_stages. rewrite Henv, Hparse. cbn zeta.
  change (s3_path (JStr "test-bucket") "test/key.json")
    with "s3://test-bucket/test/key.json".
  destruct (s3_read_json "s3://test-bucket/test/key.json") as [doc | e3];
    [cbn zeta; destruct (get_items doc) as [items | e4];
       [destruct (json_normalize items) as [df | e4'];
          [cbn zeta;
           destruct (s3_to_parquet
                       (request_of
                          (mkConfig "s3://test-output/" "test_db"
                                    "test_table" "overwrite")
                          df)) as [[] | e5] |] |] |];
    (split; intros x Hin; cbn in Hin; elem_cases Hin;
     injection Hin as ->; cbn; auto).
Qed.

End InvocationOrder.

(** ** The further properties, run on the fixtures *)

Lemma configuration_failure_comes_first_witness :
  lambda_handler (single_object "" []) accept_write no_format
                 (delete "write_data_operation" mock_environ) JNull
  = ([Logged ERROR
        (UnexpectedError
           (EnvironmentError
              "Missing environment variables: ['write_data_operation']"))],
     Raise (EnvironmentError
              "Missing environment variables: ['write_data_operation']")).
Proof.
  rewrite (configuration_failure_comes_first
             (single_object "" []) accept_write no_format
             (delete "write_data_operation" mock_environ) JNull).
  - reflexivity.
  - vm_compute. discriminate.
Defined.

Lemma malformed_event_touches_no_storage_witness :
  let event :=
    JObj [("Records",
           JArr [JObj [("s3",
                        JObj [("bucket", JObj [("name", JStr "test-bucket")]);
                              ("object", JObj [("key", JInt 7)])])]])] in
  lambda_handler (single_object "" []) accept_write no_format
                 mock_environ event
  = ([Logged INFO
        (EnvironmentConfig
           (mkConfig "s3://test-output/" "test_db" "test_table"
                     "overwrite"));
      Logged ERROR (UnexpectedError AttributeError)],
     Raise AttributeError).
Proof.
  intros event.
  apply (malformed_event_touches_no_storage
           (single_object "" []) accept_write no_format
           mock_environ event
           (mkConfig "s3://test-output/" "test_db" "test_table" "overwrite")
           AttributeError); reflexivity.
Defined.

Lemma event_without_first_record_witness :
  outcome (lambda_handler (single_object "" []) accept_write no_format
                          mock_environ (JObj [("Records", JArr [])]))
  = Raise IndexError
  /\ outcome (lambda_handler (single_object "" []) accept_write no_format
                             mock_environ (JObj []))
     = Raise (KeyError (JStr "Records")).
Proof.
  split.
  - apply (event_without_first_record
             (single_object "" []) accept_write no_format mock_environ
             [("Records", JArr [])]
             (mkConfig "s3://test-output/" "test_db" "test_table"
                       "overwrite") eq_refl).
    reflexivity.
  - apply (event_without_first_record
             (single_object "" []) accept_write no_format mock_environ
             []
             (mkConfig "s3://test-output/" "test_db" "test_table"
                       "overwrite") eq_refl).
    reflexivity.
Defined.

Lemma read_failure_is_classified_witness :
  lambda_handler (single_object "s3://elsewhere/x.json" []) accept_write
                 no_format mock_environ mock_event
  = ([Logged INFO
        (EnvironmentConfig
           (mkConfig "s3://test-output/" "test_db" "test_table"
                     "overwrite"));
      Logged INFO (ProcessingFile "s3://test-bucket/test/key.json");
      ReadJson "s3://test-bucket/test/key.json";
      Logged ERROR
        (S3FileNotFound (NoFilesFound "s3://test-bucket/test/key.json"))],
     Raise (NoFilesFound "s3://test-bucket/test/key.json")).
Proof.
  apply (read_failure_is_classified
           (single_object "s3://elsewhere/x.json" []) accept_write
           no_format mock_environ mock_event
           (mkConfig "s3://test-output/" "test_db" "test_table" "overwrite")
           (JStr "test-bucket") "test/key.json"
           (NoFilesFound "s3://test-bucket/test/key.json")); reflexivity.
Defined.

Lemma response_describes_the_write_witness :
  let run := lambda_handler
               (single_object "s3://test-bucket/test/key.json"
                              scenario_A_document)
               accept_write no_format mock_environ mock_event in
  mock_environ !! "s3_cleansed_layer" = Some "s3://test-output/"
  /\ outcome run
     = Ok {| statusCode := 200;
             body := "Successfully processed test/key.json";
             output_location := "s3://test-output/";
             processed_rows := 1 |}.
Proof.
  intros run.
  destruct (response_describes_the_write
              (single_object "s3://test-bucket/test/key.json"
                             scenario_A_document)
              accept_write no_format mock_environ mock_event
              {| statusCode := 200;
                 body := "Successfully processed test/key.json";
                 output_location := "s3://test-output/";
                 processed_rows := 1 |} eq_refl) as (_ & Hpath & _).
  split; [exact Hpath | reflexivity].
Defined.

Lemma same_object_same_invocation_witness :
  let event_of key :=
    JObj [("Records",
           JArr [JObj [("s3",
                        JObj [("bucket", JObj [("name", JStr "test-bucket")]);
                              ("object", JObj [("key", JStr key)])])]])] in
  lambda_handler (single_object "s3://test-bucket/raw data.json"
                                scenario_A_document)
                 accept_write no_format mock_environ
                 (event_of "raw+data.json")
  = lambda_handler (single_object "s3://test-bucket/raw data.json"
                                  scenario_A_document)
                   accept_write no_format mock_environ
                   (event_of "raw%20data.json").
Proof.
  intros event_of.
  apply (same_object_same_invocation
           (single_object "s3://test-bucket/raw data.json"
                          scenario_A_document)
           accept_write no_format mock_environ
           (event_of "raw+data.json") (event_of "raw%20data.json")).
  reflexivity.
Defined.

Lemma response_names_the_decoded_key_witness :
  let event :=
    JObj [("Records",
           JArr [JObj [("s3",
                        JObj [("bucket", JObj [("name", JStr "test-bucket")]);
                              ("object",
                               JObj [("key", JStr "raw+data%2F1.json")])])]])]
  in
  parse_s3_event event = Ok (JStr "test-bucket", "raw data/1.json")
  /\ outcome (lambda_handler
                (single_object "s3://test-bucket/raw data/1.json"
                               scenario_A_document)
                accept_write no_format mock_environ event)
     = Ok {| statusCode := 200;
             body := "Successfully processed raw data/1.json";
             output_location := "s3://test-output/";
             processed_rows := 1 |}.
Proof.
  intros event.
  destruct (response_names_the_decoded_key
              (single_object "s3://test-bucket/raw data/1.json"
                             scenario_A_document)
              accept_write no_format mock_environ event
              {| statusCode := 200;
                 body := "Successfully processed raw data/1.json";
                 output_location := "s3://test-output/";
                 processed_rows := 1 |} eq_refl)
    as (bucket & key & doc & Hparse & _).
  split; reflexivity.
Defined.

Lemma transform_failure_before_write_witness :
  lambda_handler
    (single_object "s3://test-bucket/test/key.json"
                   [("items", [JInt 1; JInt 2])])
    accept_write no_format mock_environ mock_event
  = ([Logged INFO
        (EnvironmentConfig
           (mkConfig "s3://test-output/" "test_db" "test_table"
                     "overwrite"));
      Logged INFO (ProcessingFile "s3://test-bucket/test/key.json");
      ReadJson "s3://test-bucket/test/key.json";
      Logged INFO (RawDataColumns ["items"]);
      Logged ERROR (UnexpectedError TypeError)], Raise TypeError).
Proof.
  apply (transform_failure_before_write
           (single_object "s3://test-bucket/test/key.json"
                          [("items", [JInt 1; JInt 2])])
           accept_write no_format mock_environ mock_event
           (mkConfig "s3://test-output/" "test_db" "test_table" "overwrite")
           (JStr "test-bucket") "test/key.json"
           [("items", [JInt 1; JInt 2])] [JInt 1; JInt 2] TypeError);
    reflexivity.
Defined.
